(** * commitizen [init]: the wizard's decision and merge logic

    A shallow embedding of [commitizen/commands/init.py] (class [Init]).

    - YAML values as [yaml.safe_load] returns them are trees over the
      scalars null, bool, int and str, sequences and mappings; a mapping
      is an association list in insertion order, as a Python [dict] is.
      Floats, binary data, timestamps and sets are left out. A tree has
      no two places that share one list object; where that matters (what
      a merge leaves alone, with YAML aliases and the append in place of
      line 167) the same lines are embedded a second time over a heap of
      list and dict objects, [merge_objects].
    - Python's dynamic operators ([in], [c[k]], [c[k] = v], iteration,
      [.append], truthiness) are functions that return an exception where
      Python raises one.
    - Prompts, git queries, the file system, the configuration store and
      the sub-process are events of a small free monad, [prog]; a run
      against any handler is the function [run], which also records the
      trace of events and answers. The [style] argument of the prompts
      is left out.
    - [config_files], the registry of rules, [__version__] and the
      version parser of [packaging] come from outside the file and are
      parameters. *)

From Stdlib Require Import String Ascii List ZArith Lia.
From ExtLib Require Import Structures.Monad.
Import ListNotations.
Import MonadNotation.

Local Open Scope list_scope.
Local Open Scope string_scope.
Local Open Scope monad_scope.

(** ** Exceptions and fallible results *)

Inductive exn : Type :=
| TypeError
| KeyError (key : string)
| AttributeError
| ValueError (msg : string)
| InvalidVersion (tag : string)
| NoAnswersError (msg : string)
| InitFailedError (msg : string).

Inductive result (A : Type) : Type :=
| Ok (a : A)
| Err (e : exn).

Arguments Ok {A} a.
Arguments Err {A} e.

#[global] Instance Monad_result : Monad result :=
  {| ret := fun _ a => Ok a;
     bind := fun _ _ r f => match r with Ok a => f a | Err e => Err e end |}.

(** ** YAML documents as Python values *)

Inductive scalar : Type :=
| SNull
| SBool (b : bool)
| SInt (z : Z)
| SStr (s : string).

#[warnings="-register-all"]
Inductive yaml : Type :=
| YScalar (c : scalar)
| YSeq (l : list yaml)
| YMap (m : list (scalar * yaml)).

Definition YStr (s : string) : yaml := YScalar (SStr s).

Definition dict : Type := list (scalar * yaml).

(** [needle in hay] on two [str]. *)
Fixpoint is_substring (needle hay : string) : bool :=
  String.prefix needle hay ||
  match hay with
  | EmptyString => false
  | String _ rest => is_substring needle rest
  end.

Module Py.

(** [bool(v)]. *)
Definition truthy (v : yaml) : bool :=
  match v with
  | YScalar SNull => false
  | YScalar (SBool b) => b
  | YScalar (SInt z) => negb (Z.eqb z 0)
  | YScalar (SStr s) => negb (String.eqb s "")
  | YSeq l => match l with [] => false | _ => true end
  | YMap m => match m with [] => false | _ => true end
  end.

(** A [str] is equal to a scalar only when the scalar is that [str]. *)
Definition key_is (k : string) (c : scalar) : bool :=
  match c with
  | SStr s => String.eqb k s
  | _ => false
  end.

Definition is_str (k : string) (v : yaml) : bool :=
  match v with
  | YScalar c => key_is k c
  | _ => false
  end.

Fixpoint dict_get (m : dict) (k : string) : option yaml :=
  match m with
  | [] => None
  | (c, v) :: rest => if key_is k c then Some v else dict_get rest k
  end.

(** [d[k] = v]: an existing key keeps its place, a new one goes last. *)
Fixpoint dict_set (m : dict) (k : string) (v : yaml) : dict :=
  match m with
  | [] => [(SStr k, v)]
  | (c, w) :: rest =>
      if key_is k c then (c, v) :: rest else (c, w) :: dict_set rest k v
  end.

(** [k in c] for a [str] k. *)
Definition contains (k : string) (c : yaml) : result bool :=
  match c with
  | YScalar (SStr s) => Ok (is_substring k s)
  | YScalar _ => Err TypeError
  | YSeq l => Ok (existsb (is_str k) l)
  | YMap m => Ok (existsb (fun kv => key_is k (fst kv)) m)
  end.

(** [c[k]] for a [str] k. *)
Definition getitem (c : yaml) (k : string) : result yaml :=
  match c with
  | YMap m => match dict_get m k with Some v => Ok v | None => Err (KeyError k) end
  | _ => Err TypeError
  end.

(** [c[k] = v] for a [str] k. *)
Definition setitem (c : yaml) (k : string) (v : yaml) : result yaml :=
  match c with
  | YMap m => Ok (YMap (dict_set m k v))
  | _ => Err TypeError
  end.

Fixpoint chars (s : string) : list yaml :=
  match s with
  | EmptyString => []
  | String a rest => YStr (String a EmptyString) :: chars rest
  end.

(** The elements [for x in c] goes through. *)
Definition iter (c : yaml) : result (list yaml) :=
  match c with
  | YSeq l => Ok l
  | YMap m => Ok (map (fun kv => YScalar (fst kv)) m)
  | YScalar (SStr s) => Ok (chars s)
  | YScalar _ => Err TypeError
  end.

(** [c.append(v)] on a tree: the list with the element added. The change
    of the list object in place, seen through every reference to it, is
    [Obj.append]. *)
Definition append (c : yaml) (v : yaml) : result yaml :=
  match c with
  | YSeq l => Ok (YSeq (l ++ [v])%list)
  | _ => Err AttributeError
  end.

End Py.

(** ** The merge of the hook entry ([_install_pre_commit_hook], lines 142-170) *)

(** [cz_hook_config], for the value of [__version__]. *)
Definition cz_hook_config (__version__ : string) : yaml :=
  YMap [ (SStr "repo", YStr "https://github.com/commitizen-tools/commitizen");
         (SStr "rev", YStr ("v" ++ __version__));
         (SStr "hooks",
          YSeq [ YMap [ (SStr "id", YStr "commitizen") ];
                 YMap [ (SStr "id", YStr "commitizen-branch");
                        (SStr "stages", YSeq [ YStr "push" ]) ] ]) ].

(** The test of the loop: ["commitizen" in pre_commit_hook["repo"]]. *)
Definition hook_matches (pre_commit_hook : yaml) : result bool :=
  repo <- Py.getitem pre_commit_hook "repo" ;;
  Py.contains "commitizen" repo.

(** The [for ... break] loop: [Ok true] when it left through [break],
    [Ok false] when it ran to its [else], an exception when a test raised
    before that. *)
Fixpoint scan_hooks (hooks : list yaml) : result bool :=
  match hooks with
  | [] => Ok false
  | pre_commit_hook :: rest =>
      found <- hook_matches pre_commit_hook ;;
      if (found : bool) then Ok true else scan_hooks rest
  end.

(** [config_data] as it stands at line 172, with whether the loop found
    the entry (and the notice was written). [existing] is [None] when
    [os.path.isfile] is false and the loaded document otherwise. The entry
    appended is a parameter; the command passes [cz_hook_config]. *)
Definition merge_config_data (cz : yaml) (existing : option yaml)
  : result (yaml * bool) :=
  match existing with
  | None =>
      config_data <- Py.setitem (YMap []) "repos" (YSeq [cz]) ;;
      ret (config_data, false)
  | Some yaml_data =>
      let config_data := if Py.truthy yaml_data then yaml_data else YMap [] in
      has_repos <- Py.contains "repos" config_data ;;
      if (has_repos : bool) then
        repos <- Py.getitem config_data "repos" ;;
        hooks <- Py.iter repos ;;
        found <- scan_hooks hooks ;;
        if (found : bool) then ret (config_data, true)
        else
          repos' <- Py.append repos cz ;;
          config_data' <- Py.setitem config_data "repos" repos' ;;
          ret (config_data', false)
      else
        config_data' <- Py.setitem config_data "repos" (YSeq [cz]) ;;
        ret (config_data', false)
  end.

(** ** Effects: events, programs, runs *)

(** [commitizen.cmd.Command], the fields the command reads. *)
Record Command : Type := { out : string; err : string; return_code : Z }.

(** The configuration object held in [self.config]: the one the command
    was built with, or one of the three the wizard constructs. *)
Inductive config : Type :=
| BaseConfig (path : option string)
| TomlConfig (data path : string)
| JsonConfig (data path : string)
| YAMLConfig (data path : string).

Definition config_path (c : config) : option string :=
  match c with
  | BaseConfig p => p
  | TomlConfig _ p | JsonConfig _ p | YAMLConfig _ p => Some p
  end.

(** The functions of [commitizen.out]. *)
Inductive channel : Type := OutLine | OutWrite | OutError | OutInfo | OutSuccess.

(** What the command asks of its collaborators, with the type of the
    answer. A prompt answers [None] when the user cancels it. [SafeLoad]
    is [open] with [yaml.safe_load], and [SafeDump] is [smart_open], of
    [commitizen.git], with [yaml.safe_dump]. *)
Inductive event : Type -> Type :=
| Select (message : string) (choices : list string) (default : option string)
  : event (option string)
| Confirm (message : string) (default : option bool) : event (option bool)
| Text (message : string) : event (option string)
| Checkbox (message : string) (choices : list (string * bool))
  : event (option (list string))
| GetLatestTagName : event (option string)
| GetTagNames : event (list string)
| Out (c : channel) (msg : string) : event unit
| IsFile (path : string) : event bool
| SafeLoad (path : string) : event yaml
| SafeDump (path : string) (data : yaml) : event unit
| Which (name : string) : event (option string)
| CmdRun (cmd_str : string) : event Command
| InitEmptyConfigContent (c : config) : event unit
| SetKey (c : config) (key : string) (value : option string) : event unit.

Inductive prog (A : Type) : Type :=
| Ret (a : A)
| Throw (e : exn)
| Vis (X : Type) (ev : event X) (k : X -> prog A).

Arguments Ret {A} a.
Arguments Throw {A} e.
Arguments Vis {A X} ev k.

Fixpoint prog_bind {A B : Type} (p : prog A) (f : A -> prog B) : prog B :=
  match p with
  | Ret a => f a
  | Throw e => Throw e
  | Vis ev k => Vis ev (fun x => prog_bind (k x) f)
  end.

#[global] Instance Monad_prog : Monad prog :=
  {| ret := fun _ a => Ret a; bind := fun _ _ p f => prog_bind p f |}.

Definition trigger {X : Type} (ev : event X) : prog X := Vis ev Ret.

Definition lift {A : Type} (r : result A) : prog A :=
  match r with
  | Ok a => Ret a
  | Err e => Throw e
  end.

(** One event of a run with the answer it got. *)
Inductive entry : Type :=
| Entry (X : Type) (ev : event X) (answer : X).

Arguments Entry {X} ev answer.

Definition trace : Type := list entry.

(** The world the command runs in: it answers each event from its state. *)
Definition handler (S : Type) : Type := forall X : Type, event X -> S -> X * S.

Fixpoint run {S A : Type} (h : handler S) (p : prog A) (s : S)
  : result A * S * trace :=
  match p with
  | Ret a => (Ok a, s, [])
  | Throw e => (Err e, s, [])
  | Vis ev k =>
      let (x, s1) := h _ ev s in
      let '(r, s2, tr) := run h (k x) s1 in
      (r, s2, Entry ev x :: tr)
  end.

(** ** The command ([class Init]) *)

Definition dquote : string := String (ascii_of_nat 34) EmptyString.
Definition newline : string := String (ascii_of_nat 10) EmptyString.

(** A [str] answer that Python takes as true: neither [None] nor empty. *)
Definition nonempty (answer : option string) : option string :=
  match answer with
  | Some s => if String.eqb s "" then None else Some s
  | None => None
  end.

(** [not answer] is false: the answer is [True]. *)
Definition accepted (answer : option bool) : bool :=
  match answer with
  | Some b => b
  | None => false
  end.

Definition no_tag_warning : string := "No Existing Tag. Set tag to v0.0.1".

Definition latest_tag_question (latest_tag : string) : string :=
  "Is " ++ latest_tag ++ " the latest tag?".

Definition _ask_tag : prog string :=
  latest_tag <- trigger GetLatestTagName ;;
  match nonempty latest_tag with
  | None =>
      trigger (Out OutError no_tag_warning) ;;
      ret "0.0.1"
  | Some latest_tag =>
      is_correct_tag <-
        trigger (Confirm (latest_tag_question latest_tag) (Some false)) ;;
      if accepted is_correct_tag then ret latest_tag
      else
        tags <- trigger GetTagNames ;;
        match tags with
        | [] =>
            trigger (Out OutError no_tag_warning) ;;
            ret "0.0.1"
        | _ :: _ =>
            choices <- trigger GetTagNames ;;
            latest_tag <-
              trigger (Select "Please choose the latest tag: " choices None) ;;
            match nonempty latest_tag with
            | None => Throw (NoAnswersError "Tag is required!")
            | Some latest_tag => ret latest_tag
            end
        end
  end.

Definition tag_format_question : string :=
  "Is " ++ dquote ++ "v$version" ++ dquote ++ " the correct tag format?".

Definition tag_format_prompt : string :=
  "Please enter the correct version format: (default: "
  ++ dquote ++ "$version" ++ dquote ++ ")".

Definition _ask_tag_format (latest_tag : string) : prog string :=
  is_correct_format <-
    (if String.prefix "v" latest_tag
     then trigger (Confirm tag_format_question None)
     else ret (Some false)) ;;
  if accepted is_correct_format then ret "v$version"
  else
    tag_format <- trigger (Text tag_format_prompt) ;;
    match nonempty tag_format with
    | None => ret "$version"
    | Some tag_format => ret tag_format
    end.

Definition _search_pre_commit : prog bool :=
  found <- trigger (Which "pre-commit") ;;
  ret (match found with Some _ => true | None => false end).

(** [cmd_str] of [_exec_install_pre_commit_hook]: the pieces are joined
    by the empty string. *)
Definition install_cmd_str (hook_types : list string) : string :=
  "pre-commit install "
  ++ String.concat "" (map (fun ty => "--hook-type " ++ ty) hook_types).

Definition _exec_install_pre_commit_hook (hook_types : list string) : prog bool :=
  match hook_types with
  | [] => Throw (ValueError "At least 1 hook type should be provided.")
  | _ :: _ =>
      let cmd_str := install_cmd_str hook_types in
      c <- trigger (CmdRun cmd_str) ;;
      if negb (Z.eqb (return_code c) 0) then
        trigger (Out OutError
                   ("Error running " ++ cmd_str ++ ". Outputs are attached below:")) ;;
        trigger (Out OutError ("stdout: " ++ out c)) ;;
        trigger (Out OutError ("stderr: " ++ err c)) ;;
        ret false
      else ret true
  end.

Definition pre_commit_config_filename : string := ".pre-commit-config.yaml".

(** [self.config.set_key(key, value)] for each item of [values], a
    [dict] in insertion order. *)
Fixpoint _update_config_file (self_config : config)
  (values : list (string * option string)) : prog unit :=
  match values with
  | [] => ret tt
  | (key, value) :: rest =>
      trigger (SetKey self_config key value) ;;
      _update_config_file self_config rest
  end.

(** The configuration object chosen from the path (lines 30-35); no
    branch taken leaves [self.config] as it was. *)
Definition config_for_path (self_config : config) (config_path : string) : config :=
  if is_substring "toml" config_path then TomlConfig "" config_path
  else if is_substring "json" config_path then JsonConfig "{}" config_path
  else if is_substring "yaml" config_path then YAMLConfig "" config_path
  else self_config.

Definition hook_types_question : string :=
  "What types of pre-commit hook you want to install? (Leave blank if you don't want to install)".

(** The hook types installed: the default of line 180 for [None]. *)
Definition effective_hook_types (hook_types : option (list string)) : list string :=
  match hook_types with
  | None => ["commit-msg"; "pre-push"]
  | Some l => l
  end.

Definition config_path_question : string :=
  "Please choose a supported config file: (default: pyproject.toml)".

Definition name_question : string :=
  "Please choose a cz (commit rule): (default: cz_conventional_commits)".

Section Init.

(** [commitizen.defaults.config_files]. *)
Variable config_files : list string.
(** [list(registry.keys())]. *)
Variable registry_keys : list string.
(** [commitizen.__version__.__version__]. *)
Variable __version__ : string.
(** [Version(tag).public] of [packaging], which raises on a tag that is
    not a version. *)
Variable Version_public : string -> result string.

Definition _ask_config_path : prog (option string) :=
  trigger (Select config_path_question config_files (Some "pyproject.toml")).

Definition _ask_name : prog (option string) :=
  trigger (Select name_question registry_keys (Some "cz_conventional_commits")).

Definition _install_pre_commit_hook (hook_types : option (list string))
  : prog bool :=
  is_file <- trigger (IsFile pre_commit_config_filename) ;;
  existing <-
    (if (is_file : bool)
     then yaml_data <- trigger (SafeLoad pre_commit_config_filename) ;;
          ret (Some yaml_data)
     else ret None) ;;
  merged <- lift (merge_config_data (cz_hook_config __version__) existing) ;;
  let (config_data, found) := (merged : yaml * bool) in
  (if (found : bool)
   then trigger (Out OutWrite "commitizen already in pre-commit config")
   else ret tt) ;;
  trigger (SafeDump pre_commit_config_filename config_data) ;;
  installed <- _search_pre_commit ;;
  if negb installed then
    trigger (Out OutError "pre-commit is not installed in current environement.") ;;
    ret false
  else
    let hook_types := effective_hook_types hook_types in
    ok <- _exec_install_pre_commit_hook hook_types ;;
    if negb ok then ret false
    else
      trigger (Out OutWrite
                 ("commitizen pre-commit hook is now installed in your '.git'"
                  ++ newline)) ;;
      ret true.

Definition __call__ (self_config : config) : prog unit :=
  match nonempty (config_path self_config) with
  | Some path =>
      trigger (Out OutLine ("Config file " ++ path ++ " already exists"))
  | None =>
      config_path <- _ask_config_path ;;
      self_config <-
        match config_path with
        | Some p => ret (config_for_path self_config p)
        | None => Throw TypeError
        end ;;
      trigger (InitEmptyConfigContent self_config) ;;
      name <- _ask_name ;;
      tag <- _ask_tag ;;
      version <- lift (Version_public tag) ;;
      tag_format <- _ask_tag_format tag ;;
      _update_config_file self_config
        [("name", name); ("version", Some version);
         ("tag_format", Some tag_format)] ;;
      hook_types <-
        trigger (Checkbox hook_types_question
                   [("commit-msg", true); ("pre-push", true)]) ;;
      match hook_types with
      | Some (ty :: tys) =>
          ok <- _install_pre_commit_hook (Some (ty :: tys)) ;;
          if negb ok then
            Throw (InitFailedError
                     "Installation failed. See error outputs for more information.")
          else ret tt
      | _ => ret tt
      end ;;
      trigger (Out OutWrite
                 ("You can bump the version and create changelog running:"
                  ++ newline)) ;;
      trigger (Out OutInfo "cz bump --changelog") ;;
      trigger (Out OutSuccess "The configuration are all set.")
  end.

End Init.

(** ** Scripts: what a handler answers along a trace *)

(** [replies h s tr s']: asked the events of [tr] in order from the state
    [s], the handler [h] gives the answers recorded in [tr] and ends in
    [s']. *)
Fixpoint replies {S : Type} (h : handler S) (s : S) (tr : trace) (s' : S) : Prop :=
  match tr with
  | [] => s' = s
  | Entry ev x :: rest => exists s1, h _ ev s = (x, s1) /\ replies h s1 rest s'
  end.

(** The [set_key] call an event makes, if it is one. *)
Definition event_set_key {X : Type} (ev : event X)
  : list (config * string * option string) :=
  match ev with
  | SetKey c key value => [(c, key, value)]
  | _ => []
  end.

(** The document an event creates with [init_empty_config_content]. *)
Definition event_init {X : Type} (ev : event X) : list config :=
  match ev with
  | InitEmptyConfigContent c => [c]
  | _ => []
  end.

Definition is_select (e : entry) : bool :=
  match e with
  | Entry ev _ =>
      match ev with
      | Select _ _ _ => true
      | _ => false
      end
  end.

Definition is_text (e : entry) : bool :=
  match e with
  | Entry ev _ =>
      match ev with
      | Text _ => true
      | _ => false
      end
  end.

(** The [set_key] calls of a trace, in order, and the documents created. *)
Definition set_keys (tr : trace) : list (config * string * option string) :=
  flat_map (fun e => match e with Entry ev _ => event_set_key ev end) tr.

Definition inits (tr : trace) : list config :=
  flat_map (fun e => match e with Entry ev _ => event_init ev end) tr.

(** A program that never calls [set_key] nor creates a document. *)
Inductive store_free {A : Type} : prog A -> Prop :=
| store_free_ret a : store_free (Ret a)
| store_free_throw e : store_free (Throw e)
| store_free_vis X (ev : event X) k :
    event_set_key ev = [] ->
    event_init ev = [] ->
    (forall x, store_free (k x)) ->
    store_free (Vis ev k).

(** ** The command line as the shell sees it *)

Fixpoint split_blank (s : string) : list string :=
  match s with
  | EmptyString => [""]
  | String c rest =>
      if Ascii.eqb c " " then "" :: split_blank rest
      else match split_blank rest with
           | w :: ws => String c w :: ws
           | [] => [String c ""]
           end
  end.

(** [cmd.run] hands its string to the shell. For a command line of
    plain words, with no tabulation, newline, quote or other character
    the shell gives a meaning to, the words are the pieces between the
    blanks. *)
Definition shell_words (cmd_str : string) : list string :=
  filter (fun w => negb (String.eqb w "")) (split_blank cmd_str).

(** The invocation in the specification's words: [install], then
    [--hook-type <type>] once per selected hook type. *)
Definition spec_install_argv (hook_types : list string) : list string :=
  (["pre-commit"; "install"]
   ++ flat_map (fun ty => ["--hook-type"; ty]) hook_types)%list.

(** Modelled from the spec: the exit behaviour of the CLI surface
    ([commitizen/cli.py] and the exit codes of [commitizen/exceptions.py]
    are not part of the sources at hand). The command "returns success
    when the wizard reaches Done" and "a non-zero status with an
    explanatory message when it reaches Aborted via a fatal path"; an
    exception that leaves [__call__] is such a path. *)
Definition exits_with_success (r : result unit) : bool :=
  match r with
  | Ok _ => true
  | Err _ => false
  end.

(** ** A scripted world

    A concrete handler to run the command against: a repository with its
    tags, a user whose answers are queued per kind of prompt (an empty
    queue is a cancelled prompt), the hook-manager file, the executable
    search path and the outcome of the sub-process. *)

Record world : Type := {
  git_latest_tag : option string;
  git_tags : list string;
  confirms : list (option bool);
  selects : list (option string);
  texts : list (option string);
  checkboxes : list (option (list string));
  hook_file : option yaml;
  which_pre_commit : option string;
  cmd_result : Command;
  store : list (string * option string)
}.

Definition next_answer {A : Type} (queue : list (option A)) : option A :=
  match queue with
  | a :: _ => a
  | [] => None
  end.

Definition world_handler : handler world :=
  fun X ev =>
    match ev in event X return world -> X * world with
    | Select _ _ _ => fun w =>
        (next_answer (selects w),
         {| git_latest_tag := git_latest_tag w; git_tags := git_tags w;
            confirms := confirms w; selects := tl (selects w);
            texts := texts w; checkboxes := checkboxes w;
            hook_file := hook_file w; which_pre_commit := which_pre_commit w;
            cmd_result := cmd_result w; store := store w |})
    | Confirm _ _ => fun w =>
        (next_answer (confirms w),
         {| git_latest_tag := git_latest_tag w; git_tags := git_tags w;
            confirms := tl (confirms w); selects := selects w;
            texts := texts w; checkboxes := checkboxes w;
            hook_file := hook_file w; which_pre_commit := which_pre_commit w;
            cmd_result := cmd_result w; store := store w |})
    | Text _ => fun w =>
        (next_answer (texts w),
         {| git_latest_tag := git_latest_tag w; git_tags := git_tags w;
            confirms := confirms w; selects := selects w;
            texts := tl (texts w); checkboxes := checkboxes w;
            hook_file := hook_file w; which_pre_commit := which_pre_commit w;
            cmd_result := cmd_result w; store := store w |})
    | Checkbox _ _ => fun w =>
        (next_answer (checkboxes w),
         {| git_latest_tag := git_latest_tag w; git_tags := git_tags w;
            confirms := confirms w; selects := selects w;
            texts := texts w; checkboxes := tl (checkboxes w);
            hook_file := hook_file w; which_pre_commit := which_pre_commit w;
            cmd_result := cmd_result w; store := store w |})
    | GetLatestTagName => fun w => (git_latest_tag w, w)
    | GetTagNames => fun w => (git_tags w, w)
    | Out _ _ => fun w => (tt, w)
    | IsFile _ => fun w =>
        (match hook_file w with Some _ => true | None => false end, w)
    | SafeLoad _ => fun w =>
        (match hook_file w with Some y => y | None => YScalar SNull end, w)
    | SafeDump _ data => fun w =>
        (tt,
         {| git_latest_tag := git_latest_tag w; git_tags := git_tags w;
            confirms := confirms w; selects := selects w;
            texts := texts w; checkboxes := checkboxes w;
            hook_file := Some data; which_pre_commit := which_pre_commit w;
            cmd_result := cmd_result w; store := store w |})
    | Which _ => fun w => (which_pre_commit w, w)
    | CmdRun _ => fun w => (cmd_result w, w)
    | InitEmptyConfigContent _ => fun w => (tt, w)
    | SetKey _ key value => fun w =>
        (tt,
         {| git_latest_tag := git_latest_tag w; git_tags := git_tags w;
            confirms := confirms w; selects := selects w;
            texts := texts w; checkboxes := checkboxes w;
            hook_file := hook_file w; which_pre_commit := which_pre_commit w;
            cmd_result := cmd_result w;
            store := (store w ++ [(key, value)])%list |})
    end.

(** A fresh checkout: no tag, no hook-manager file, [pre-commit] on the
    path and succeeding, and a user who cancels every prompt. *)
Definition fresh_world : world :=
  {| git_latest_tag := None; git_tags := [];
     confirms := []; selects := []; texts := []; checkboxes := [];
     hook_file := None;
     which_pre_commit := Some "/usr/bin/pre-commit";
     cmd_result := {| out := ""; err := ""; return_code := 0 |};
     store := [] |}.

(** A stand-in for [Version(tag).public] on the tags of the examples: a
    release number with an optional leading [v], which the parser drops. *)
Definition release_public (tag : string) : result string :=
  match tag with
  | String "v" rest => Ok rest
  | _ => Ok tag
  end.

Definition result_of {S A : Type} (x : result A * S * trace) : result A :=
  fst (fst x).

Definition state_of {S A : Type} (x : result A * S * trace) : S :=
  snd (fst x).

Definition trace_of {S A : Type} (x : result A * S * trace) : trace :=
  snd x.

(** ** The opening of the wizard

    The events of [__call__] up to the tag: the path chosen, the empty
    document created for it, the rule chosen. *)
Definition wizard_opening (config_files registry_keys : list string)
  (self_config : config) (chosen_path : string) (name : option string) : trace :=
  [ Entry (Select config_path_question config_files (Some "pyproject.toml"))
      (Some chosen_path);
    Entry (InitEmptyConfigContent (config_for_path self_config chosen_path)) tt;
    Entry (Select name_question registry_keys (Some "cz_conventional_commits")) name ].

(** The three [set_key] calls of [_update_config_file], on the document
    [c]. *)
Definition wizard_keys (c : config) (name : option string) (version tag_format : string)
  : list (config * string * option string) :=
  [ (c, "name", name); (c, "version", Some version);
    (c, "tag_format", Some tag_format) ].

Definition wizard_key_entries (c : config) (name : option string)
  (version tag_format : string) : trace :=
  [ Entry (SetKey c "name" name) tt;
    Entry (SetKey c "version" (Some version)) tt;
    Entry (SetKey c "tag_format" (Some tag_format)) tt ].

(** ** The events of the hook installation *)

(** What [_install_pre_commit_hook] reads: the file test, and the loaded
    document when the file exists. *)
Definition read_entries (existing : option yaml) : trace :=
  match existing with
  | None => [ Entry (IsFile pre_commit_config_filename) false ]
  | Some yaml_data =>
      [ Entry (IsFile pre_commit_config_filename) true;
        Entry (SafeLoad pre_commit_config_filename) yaml_data ]
  end.

(** Its events up to the write of line 173. *)
Definition merge_entries (existing : option yaml) (config_data : yaml) (found : bool)
  : trace :=
  (read_entries existing
   ++ (if found
       then [ Entry (Out OutWrite "commitizen already in pre-commit config") tt ]
       else [])
   ++ [ Entry (SafeDump pre_commit_config_filename config_data) tt ])%list.

(** The events when [pre-commit] is not found. *)
Definition missing_entries : trace :=
  [ Entry (Which "pre-commit") None;
    Entry (Out OutError "pre-commit is not installed in current environement.") tt ].

(** The events of [_exec_install_pre_commit_hook] when the sub-process
    [c] fails. *)
Definition failure_entries (cmd_str : string) (c : Command) : trace :=
  [ Entry (CmdRun cmd_str) c;
    Entry (Out OutError
             ("Error running " ++ cmd_str ++ ". Outputs are attached below:")) tt;
    Entry (Out OutError ("stdout: " ++ out c)) tt;
    Entry (Out OutError ("stderr: " ++ err c)) tt ].

Fixpoint no_blank (s : string) : bool :=
  match s with
  | EmptyString => true
  | String c rest => negb (Ascii.eqb c " ") && no_blank rest
  end.

(** ** Worlds of the examples *)

(** The choices the wizard offers in the examples. *)
Definition offered_config_files : list string :=
  ["pyproject.toml"; ".cz.toml"; ".cz.json"; "cz.json"; ".cz.yaml"; "cz.yaml"].

Definition offered_rules : list string :=
  ["cz_conventional_commits"; "cz_jira"; "cz_customize"].

Definition with_answers (confirms_ : list (option bool))
  (selects_ texts_ : list (option string))
  (checkboxes_ : list (option (list string))) (w : world) : world :=
  {| git_latest_tag := git_latest_tag w; git_tags := git_tags w;
     confirms := confirms_; selects := selects_; texts := texts_;
     checkboxes := checkboxes_;
     hook_file := hook_file w; which_pre_commit := which_pre_commit w;
     cmd_result := cmd_result w; store := store w |}.

Definition with_tags (latest : option string) (tags : list string) (w : world) : world :=
  {| git_latest_tag := latest; git_tags := tags;
     confirms := confirms w; selects := selects w; texts := texts w;
     checkboxes := checkboxes w;
     hook_file := hook_file w; which_pre_commit := which_pre_commit w;
     cmd_result := cmd_result w; store := store w |}.

Definition with_hook_manager (file : option yaml) (which : option string)
  (c : Command) (w : world) : world :=
  {| git_latest_tag := git_latest_tag w; git_tags := git_tags w;
     confirms := confirms w; selects := selects w; texts := texts w;
     checkboxes := checkboxes w;
     hook_file := file; which_pre_commit := which;
     cmd_result := c; store := store w |}.

(** A hook-manager file with one foreign entry and an unrelated key. *)
Definition foreign_hook : yaml :=
  YMap [ (SStr "repo", YStr "https://github.com/psf/black");
         (SStr "rev", YStr "23.1.0");
         (SStr "hooks", YSeq [ YMap [ (SStr "id", YStr "black") ] ]) ].

Definition foreign_document : dict :=
  [ (SStr "default_stages", YSeq [ YStr "commit" ]);
    (SStr "repos", YSeq [ foreign_hook ]);
    (SStr "fail_fast", YScalar (SBool true)) ].

Definition failed_command : Command :=
  {| out := ""; err := "error: invalid choice"; return_code := 2 |}.

(** ** Malformed entry lists *)

(** An element of the entry list the test cannot read: not a mapping, or a
    mapping without the [repo] key. *)
Definition malformed_entry (hook : yaml) : bool :=
  match hook with
  | YMap m => match Py.dict_get m "repo" with Some _ => false | None => true end
  | _ => true
  end.

(** The claim as it is worded: any malformed element anywhere in the list
    makes the merge raise. *)
Definition malformed_always_raises : Prop :=
  forall (E : yaml) (m : dict) (l : list yaml) (bad : yaml),
    Py.dict_get m "repos" = Some (YSeq l) ->
    In bad l ->
    malformed_entry bad = true ->
    exists e, merge_config_data E (Some (YMap m)) = Err e.

(** ** Loaded documents as objects on a heap

    [yaml.safe_load] builds one list object for every sequence and one
    dict object for every mapping of the document, and a YAML alias makes
    two places refer to the same object. Line 167 appends to the list
    object in place and lines 154 and 170 assign into the dict object, so
    what a merge leaves alone is a matter of objects. A value is a scalar
    or a reference to an object of the heap; an address is a position in
    the heap, and a new object goes to its end. *)

Inductive pyval : Type :=
| PScalar (c : scalar)
| PRef (a : nat).

Inductive pyobj : Type :=
| PList (items : list pyval)
| PDict (items : list (scalar * pyval)).

Definition heap : Type := list pyobj.

Bind Scope list_scope with heap.

Module Obj.

Definition deref (h : heap) (v : pyval) : option pyobj :=
  match v with
  | PRef a => nth_error h a
  | PScalar _ => None
  end.

(** A new object. *)
Definition alloc (h : heap) (o : pyobj) : heap * pyval :=
  ((h ++ [o])%list, PRef (length h)).

(** The object at an address replaced, in place. *)
Fixpoint update (h : heap) (a : nat) (o : pyobj) : heap :=
  match h with
  | [] => []
  | x :: rest =>
      match a with
      | O => o :: rest
      | S a' => x :: update rest a' o
      end
  end.

(** [bool(v)]. (A reference to no object does not occur in a loaded
    document; the operators below answer it like an object that supports
    nothing.) *)
Definition truthy (h : heap) (v : pyval) : bool :=
  match v with
  | PScalar SNull => false
  | PScalar (SBool b) => b
  | PScalar (SInt z) => negb (Z.eqb z 0)
  | PScalar (SStr s) => negb (String.eqb s "")
  | PRef a =>
      match nth_error h a with
      | Some (PList []) => false
      | Some (PDict []) => false
      | _ => true
      end
  end.

Definition is_str (k : string) (v : pyval) : bool :=
  match v with
  | PScalar c => Py.key_is k c
  | PRef _ => false
  end.

Fixpoint dict_get (m : list (scalar * pyval)) (k : string) : option pyval :=
  match m with
  | [] => None
  | (c, v) :: rest => if Py.key_is k c then Some v else dict_get rest k
  end.

(** [d[k] = v]: an existing key keeps its place, a new one goes last. *)
Fixpoint dict_set (m : list (scalar * pyval)) (k : string) (v : pyval)
  : list (scalar * pyval) :=
  match m with
  | [] => [(SStr k, v)]
  | (c, w) :: rest =>
      if Py.key_is k c then (c, v) :: rest else (c, w) :: dict_set rest k v
  end.

(** [k in c] for a [str] k. *)
Definition contains (h : heap) (k : string) (c : pyval) : result bool :=
  match c with
  | PScalar (SStr s) => Ok (is_substring k s)
  | PScalar _ => Err TypeError
  | PRef a =>
      match nth_error h a with
      | Some (PList l) => Ok (existsb (is_str k) l)
      | Some (PDict m) => Ok (existsb (fun kv => Py.key_is k (fst kv)) m)
      | None => Err TypeError
      end
  end.

(** [c[k]] for a [str] k. *)
Definition getitem (h : heap) (c : pyval) (k : string) : result pyval :=
  match deref h c with
  | Some (PDict m) =>
      match dict_get m k with
      | Some v => Ok v
      | None => Err (KeyError k)
      end
  | _ => Err TypeError
  end.

(** [c[k] = v] for a [str] k: the dict object itself is changed. *)
Definition setitem (h : heap) (c : pyval) (k : string) (v : pyval) : result heap :=
  match c with
  | PRef a =>
      match nth_error h a with
      | Some (PDict m) => Ok (update h a (PDict (dict_set m k v)))
      | _ => Err TypeError
      end
  | PScalar _ => Err TypeError
  end.

Fixpoint chars (s : string) : list pyval :=
  match s with
  | EmptyString => []
  | String a rest => PScalar (SStr (String a EmptyString)) :: chars rest
  end.

(** The elements [for x in c] goes through. *)
Definition iter (h : heap) (c : pyval) : result (list pyval) :=
  match c with
  | PScalar (SStr s) => Ok (chars s)
  | PScalar _ => Err TypeError
  | PRef a =>
      match nth_error h a with
      | Some (PList l) => Ok l
      | Some (PDict m) => Ok (map (fun kv => PScalar (fst kv)) m)
      | None => Err TypeError
      end
  end.

(** [c.append(v)]: the list object itself is changed. *)
Definition append (h : heap) (c : pyval) (v : pyval) : result heap :=
  match c with
  | PRef a =>
      match nth_error h a with
      | Some (PList l) => Ok (update h a (PList (l ++ [v])))
      | _ => Err AttributeError
      end
  | PScalar _ => Err AttributeError
  end.

End Obj.

(** The test of the loop, on objects. *)
Definition hook_matches_obj (h : heap) (pre_commit_hook : pyval) : result bool :=
  repo <- Obj.getitem h pre_commit_hook "repo" ;;
  Obj.contains h "commitizen" repo.

Fixpoint scan_hooks_obj (h : heap) (hooks : list pyval) : result bool :=
  match hooks with
  | [] => Ok false
  | pre_commit_hook :: rest =>
      found <- hook_matches_obj h pre_commit_hook ;;
      if (found : bool) then Ok true else scan_hooks_obj h rest
  end.

(** Lines 151-170 on objects: the heap and [config_data] as they stand at
    line 172, with whether the loop found the entry. [cz] is the value of
    [cz_hook_config], built at lines 142-149, and [existing] the loaded
    document, [None] without a file. *)
Definition merge_objects (cz : pyval) (h : heap) (existing : option pyval)
  : result (heap * pyval * bool) :=
  let (h, config_data) := Obj.alloc h (PDict []) in
  match existing with
  | None =>
      let (h, repos) := Obj.alloc h (PList [cz]) in
      h <- Obj.setitem h config_data "repos" repos ;;
      ret (h, config_data, false)
  | Some yaml_data =>
      let config_data := if Obj.truthy h yaml_data then yaml_data else config_data in
      has_repos <- Obj.contains h "repos" config_data ;;
      if (has_repos : bool) then
        repos <- Obj.getitem h config_data "repos" ;;
        hooks <- Obj.iter h repos ;;
        found <- scan_hooks_obj h hooks ;;
        if (found : bool) then ret (h, config_data, true)
        else
          h <- Obj.append h repos cz ;;
          ret (h, config_data, false)
      else
        let (h, repos) := Obj.alloc h (PList [cz]) in
        h <- Obj.setitem h config_data "repos" repos ;;
        ret (h, config_data, false)
  end.

(** A tree put into the heap, every sequence and mapping as an object of
    its own: a document loaded from a file without aliases. *)
Fixpoint load_tree (t : yaml) (h : heap) : heap * pyval :=
  match t with
  | YScalar c => (h, PScalar c)
  | YSeq l =>
      let (h1, items) :=
        (fix go (l : list yaml) (h : heap) : heap * list pyval :=
           match l with
           | [] => (h, [])
           | x :: rest =>
               let (h1, v) := load_tree x h in
               let (h2, vs) := go rest h1 in
               (h2, v :: vs)
           end) l h in
      Obj.alloc h1 (PList items)
  | YMap m =>
      let (h1, items) :=
        (fix go (m : list (scalar * yaml)) (h : heap)
           : heap * list (scalar * pyval) :=
           match m with
           | [] => (h, [])
           | (k, x) :: rest =>
               let (h1, v) := load_tree x h in
               let (h2, vs) := go rest h1 in
               (h2, (k, v) :: vs)
           end) m h in
      Obj.alloc h1 (PDict items)
  end.

(** The tree a value unfolds to, as [yaml.safe_dump] writes it, to the
    depth [fuel]. *)
Fixpoint tree_of (fuel : nat) (h : heap) (v : pyval) : option yaml :=
  match fuel with
  | O => None
  | S fuel =>
      match v with
      | PScalar c => Some (YScalar c)
      | PRef a =>
          match nth_error h a with
          | None => None
          | Some (PList l) =>
              option_map YSeq
                (fold_right
                   (fun x acc =>
                      match tree_of fuel h x, acc with
                      | Some t, Some ts => Some (t :: ts)
                      | _, _ => None
                      end) (Some []) l)
          | Some (PDict m) =>
              option_map YMap
                (fold_right
                   (fun kv acc =>
                      match tree_of fuel h (snd kv), acc with
                      | Some t, Some ts => Some ((fst kv, t) :: ts)
                      | _, _ => None
                      end) (Some []) m)
          end
      end
  end.

(** The claim on what a merge leaves alone, as it is worded: for every
    document, without a [repos] key the key is added with exactly the
    entry and every other key is as before; with a [repos] list in which
    no entry is recognised, the entry is appended and every other key is
    as before. A key is as before when it is still there with the value it
    had, and a list or mapping that is its value has the content it had. *)
Definition other_keys_as_before (h h' : heap) (m m' : list (scalar * pyval)) : Prop :=
  forall (key : scalar) (v : pyval),
    In (key, v) m -> Py.key_is "repos" key = false ->
    In (key, v) m' /\ Obj.deref h' v = Obj.deref h v.

Definition merge_frame_as_worded : Prop :=
  forall (cz : pyval) (h : heap) (doc : pyval),
    (Obj.contains h "repos" doc <> Ok true ->
     exists h' root' repos m',
       merge_objects cz h (Some doc) = Ok (h', root', false) /\
       Obj.deref h' root' = Some (PDict m') /\
       Obj.dict_get m' "repos" = Some repos /\
       Obj.deref h' repos = Some (PList [cz]) /\
       forall m, Obj.deref h doc = Some (PDict m) -> other_keys_as_before h h' m m')
    /\
    (forall (m : list (scalar * pyval)) (repos : pyval) (l : list pyval),
       Obj.deref h doc = Some (PDict m) ->
       Obj.dict_get m "repos" = Some repos ->
       Obj.deref h repos = Some (PList l) ->
       (forall hook, In hook l -> hook_matches_obj h hook <> Ok true) ->
       exists h' m',
         merge_objects cz h (Some doc) = Ok (h', doc, false) /\
         Obj.deref h' repos = Some (PList (l ++ [cz])) /\
         Obj.deref h' doc = Some (PDict m') /\
         other_keys_as_before h h' m m').

(** A document with an alias: [base: &r []] and [repos: *r], one list
    object under two keys; the entry to add is the object at address 2. *)
Definition aliased_heap : heap :=
  [ PDict [ (SStr "base", PRef 1); (SStr "repos", PRef 1) ];
    PList [];
    PDict [ (SStr "repo", PScalar (SStr "https://github.com/commitizen-tools/commitizen")) ] ].

(** The heap after lines 142-157 when the file holds [foreign_document]:
    the entry of version 3.0.0 is the object at address 4, the document
    the object at address 10 and its [repos] list the object at address 9. *)
Definition loaded_heap : heap :=
  fst (load_tree (YMap foreign_document) (fst (load_tree (cz_hook_config "3.0.0") []))).

(** ** What the merge starts from *)

(** The mapping [config_data] holds at line 161: empty without a file or
    for a document Python takes as false, the document itself when it is
    a mapping; nothing for a document of another type, which the merge
    cannot handle. *)
Definition base_mapping (existing : option yaml) : option dict :=
  match existing with
  | None => Some []
  | Some yaml_data =>
      if Py.truthy yaml_data then
        match yaml_data with
        | YMap m => Some m
        | _ => None
        end
      else Some []
  end.

(** ** Kinds of events *)

Definition event_test : Type := forall X : Type, event X -> bool.

Definition is_prompt : event_test :=
  fun X ev =>
    match ev with
    | Select _ _ _ | Confirm _ _ | Text _ | Checkbox _ _ => true
    | _ => false
    end.

(** The two tag queries of [commitizen.git], [get_latest_tag_name] and
    [get_tag_names]. ([smart_open], of the same module, is part of the
    [SafeDump] event.) *)
Definition is_git_query : event_test :=
  fun X ev =>
    match ev with
    | GetLatestTagName | GetTagNames => true
    | _ => false
    end.

Definition touches_hook_manager : event_test :=
  fun X ev =>
    match ev with
    | IsFile _ | SafeLoad _ | SafeDump _ _ | Which _ | CmdRun _ => true
    | _ => false
    end.

Definition touches_store : event_test :=
  fun X ev =>
    match ev with
    | InitEmptyConfigContent _ | SetKey _ _ _ => true
    | _ => false
    end.

(** Some event of the trace passes the test. *)
Definition occurs (t : event_test) (tr : trace) : bool :=
  existsb (fun e => match e with Entry ev _ => t _ ev end) tr.

(** A program none of whose events passes the test, whatever it is
    answered. *)
Inductive avoids {A : Type} (t : event_test) : prog A -> Prop :=
| avoids_ret a : avoids t (Ret a)
| avoids_throw e : avoids t (Throw e)
| avoids_vis X (ev : event X) k :
    t X ev = false ->
    (forall x, avoids t (k x)) ->
    avoids t (Vis ev k).

(** ** The end of the wizard *)

(** Lines 45-60 of [__call__]: the hook types are asked for and installed,
    and the closing messages are written. *)
Definition wizard_closing (__version__ : string) : prog unit :=
  hook_types <-
    trigger (Checkbox hook_types_question
               [("commit-msg", true); ("pre-push", true)]) ;;
  match hook_types with
  | Some (ty :: tys) =>
      ok <- _install_pre_commit_hook __version__ (Some (ty :: tys)) ;;
      if negb ok then
        Throw (InitFailedError
                 "Installation failed. See error outputs for more information.")
      else ret tt
  | _ => ret tt
  end ;;
  trigger (Out OutWrite
             ("You can bump the version and create changelog running:"
              ++ newline)) ;;
  trigger (Out OutInfo "cz bump --changelog") ;;
  trigger (Out OutSuccess "The configuration are all set.").

Definition hook_types_entry (hook_types : option (list string)) : entry :=
  Entry (Checkbox hook_types_question [("commit-msg", true); ("pre-push", true)])
    hook_types.

Definition closing_messages : trace :=
  [ Entry (Out OutWrite
             ("You can bump the version and create changelog running:"
              ++ newline)) tt;
    Entry (Out OutInfo "cz bump --changelog") tt;
    Entry (Out OutSuccess "The configuration are all set.") tt ].

(** The events of a hook installation that succeeds, after the write. *)
Definition success_entries (path cmd_str : string) (c : Command) : trace :=
  [ Entry (Which "pre-commit") (Some path);
    Entry (CmdRun cmd_str) c;
    Entry (Out OutWrite
             ("commitizen pre-commit hook is now installed in your '.git'"
              ++ newline)) tt ].

(** The wizard has asked its questions and set its keys: from [sA] the
    handler has answered the opening with the path [p] and the rule [n],
    [_ask_tag] has returned [tag], of public version [v],
    [_ask_tag_format] has returned [fmt], the three keys are set, the
    state is [sK] and the trace so far [asked]. *)
Definition questions_answered {S : Type} (h : handler S)
  (config_files registry_keys : list string)
  (Version_public : string -> result string)
  (self_config : config) (sA : S) (p : string) (n : option string)
  (tag v fmt : string) (sK : S) (asked : trace) : Prop :=
  nonempty (config_path self_config) = None /\
  exists (s0 sE sF : S) (trT trF : trace),
    replies h sA (wizard_opening config_files registry_keys self_config p n) s0 /\
    run h _ask_tag s0 = (Ok tag, sE, trT) /\
    Version_public tag = Ok v /\
    run h (_ask_tag_format tag) sE = (Ok fmt, sF, trF) /\
    replies h sF
      (wizard_key_entries (config_for_path self_config p) n v fmt) sK /\
    asked = (wizard_opening config_files registry_keys self_config p n
             ++ trT ++ trF
             ++ wizard_key_entries (config_for_path self_config p) n v fmt)%list.

(** * Properties *)

(** ** Dictionaries and the scan *)

Lemma key_is_refl (k : string) : Py.key_is k (SStr k) = true.
Proof. apply String.eqb_refl. Qed.

#[local] Arguments Py.key_is : simpl never.

Lemma key_is_true (k : string) (c : scalar) : Py.key_is k c = true -> c = SStr k.
Proof.
  destruct c; unfold Py.key_is; try discriminate.
  intros H. apply String.eqb_eq in H. now subst.
Qed.

Lemma contains_key_dict_get (m : dict) (k : string) :
  existsb (fun kv => Py.key_is k (fst kv)) m
  = match Py.dict_get m k with Some _ => true | None => false end.
Proof.
  induction m as [|[c v] m IH]; simpl; [reflexivity|].
  destruct (Py.key_is k c); simpl; [reflexivity | exact IH].
Qed.

Lemma dict_get_set (m : dict) (k : string) (v : yaml) :
  Py.dict_get (Py.dict_set m k v) k = Some v.
Proof.
  induction m as [|[c w] m IH]; simpl.
  - now rewrite key_is_refl.
  - destruct (Py.key_is k c) eqn:E; simpl; rewrite E; [reflexivity | exact IH].
Qed.

Lemma dict_set_absent (m : dict) (k : string) (v : yaml) :
  Py.dict_get m k = None -> Py.dict_set m k v = (m ++ [(SStr k, v)])%list.
Proof.
  induction m as [|[c w] m IH]; simpl; [reflexivity|].
  destruct (Py.key_is k c); [discriminate|].
  intros H. now rewrite IH.
Qed.

Lemma dict_set_present (m : dict) (k : string) (w v : yaml) :
  Py.dict_get m k = Some w ->
  exists pre post,
    m = (pre ++ (SStr k, w) :: post)%list /\
    Py.dict_get pre k = None /\
    Py.dict_set m k v = (pre ++ (SStr k, v) :: post)%list.
Proof.
  induction m as [|[c u] m IH]; simpl; [discriminate|].
  destruct (Py.key_is k c) eqn:E.
  - intros [= ->]. apply key_is_true in E. subst c.
    exists [], m. simpl. auto.
  - intros H. destruct (IH H) as (pre & post & -> & Hpre & Hset).
    exists ((c, u) :: pre), post. simpl. rewrite E, Hset. auto.
Qed.

Lemma dict_set_truthy (m : dict) (k : string) (v : yaml) :
  Py.truthy (YMap (Py.dict_set m k v)) = true.
Proof.
  destruct m as [|[c w] m]; simpl; [reflexivity|].
  now destruct (Py.key_is k c).
Qed.

Lemma scan_hooks_app (l l' : list yaml) :
  scan_hooks l = Ok false -> scan_hooks (l ++ l') = scan_hooks l'.
Proof.
  induction l as [|x l IH]; simpl; [reflexivity|].
  destruct (hook_matches x) as [[|]|]; simpl; try discriminate.
  exact IH.
Qed.

Lemma scan_hooks_none (l : list yaml) :
  Forall (fun hook => hook_matches hook = Ok false) l -> scan_hooks l = Ok false.
Proof.
  induction 1 as [|x l Hx _ IH]; simpl; [reflexivity|].
  now rewrite Hx.
Qed.

Lemma scan_hooks_last (E : yaml) (l : list yaml) :
  hook_matches E = Ok true -> scan_hooks l = Ok false ->
  scan_hooks (l ++ [E]) = Ok true.
Proof.
  intros HE Hl. rewrite (scan_hooks_app l [E] Hl). simpl. now rewrite HE.
Qed.

(** The entry the command installs is recognised by its own scan, for
    every version of the tool. *)
Lemma cz_hook_config_matches (v : string) : hook_matches (cz_hook_config v) = Ok true.
Proof. reflexivity. Qed.

(** Without a file the merge cannot fail. *)
Lemma merge_absent_total (E : yaml) :
  merge_config_data E None = Ok (YMap [(SStr "repos", YSeq [E])], false).
Proof. reflexivity. Qed.

(** A document that holds the entry list with a recognised entry last:
    a merge, of whatever entry, returns it as it is. *)
Lemma merge_after_set (E E' : yaml) (m : dict) (l : list yaml) :
  hook_matches E = Ok true ->
  scan_hooks l = Ok false ->
  let d := YMap (Py.dict_set m "repos" (YSeq (l ++ [E]))) in
  merge_config_data E' (Some d) = Ok (d, true).
Proof.
  intros HE Hl d. unfold merge_config_data, d.
  rewrite dict_set_truthy. cbn.
  rewrite contains_key_dict_get, dict_get_set. cbn.
  rewrite (scan_hooks_last E l HE Hl). reflexivity.
Qed.

(** A document in which the scan finds the entry is returned as it is. *)
Lemma merge_found (E : yaml) (m : dict) (repos : yaml) (hooks : list yaml) :
  Py.dict_get m "repos" = Some repos ->
  Py.iter repos = Ok hooks ->
  scan_hooks hooks = Ok true ->
  merge_config_data E (Some (YMap m)) = Ok (YMap m, true).
Proof.
  intros Hget Hiter Hscan. unfold merge_config_data.
  assert (Ht : Py.truthy (YMap m) = true) by (destruct m; [discriminate | reflexivity]).
  rewrite Ht. cbn. rewrite contains_key_dict_get, Hget. cbn.
  rewrite Hiter. cbn. rewrite Hscan. reflexivity.
Qed.

(** ** C1: merging is idempotent *)

(** What one merge with a recognised entry produced, any later merge
    returns as it is. *)
Lemma merge_stable (E E' : yaml) (existing : option yaml) (d : yaml) (found : bool) :
  hook_matches E = Ok true ->
  merge_config_data E existing = Ok (d, found) ->
  merge_config_data E' (Some d) = Ok (d, true).
Proof.
  intros HE H. destruct existing as [yaml_data|].
  - unfold merge_config_data in H.
    remember (if Py.truthy yaml_data then yaml_data else YMap []) as cd eqn:Hcd.
    clear Hcd yaml_data.
    destruct (Py.contains "repos" cd) as [[|]|] eqn:Hc; cbn in H; try discriminate.
    + destruct cd as [c|l|m]; cbn in H; try discriminate.
      destruct (Py.dict_get m "repos") as [repos|] eqn:Hget; cbn in H; try discriminate.
      destruct (Py.iter repos) as [hooks|] eqn:Hiter; cbn in H; try discriminate.
      destruct (scan_hooks hooks) as [[|]|] eqn:Hscan; cbn in H; try discriminate.
      * injection H as <- <-. exact (merge_found E' m repos hooks Hget Hiter Hscan).
      * destruct repos as [c|l|m']; cbn in H; try discriminate.
        injection H as <- <-. cbn in Hiter. injection Hiter as <-.
        exact (merge_after_set E E' m l HE Hscan).
    + destruct cd as [c|l|m]; cbn in H; try discriminate.
      injection H as <- <-.
      exact (merge_after_set E E' m [] HE eq_refl).
  - rewrite merge_absent_total in H. injection H as <- <-.
    exact (merge_after_set E E' [] [] HE eq_refl).
Qed.

(** C1. For every entry [E] that the scan recognises (its [repo] contains
    [commitizen]) and every state of the hook-manager file, if a merge
    with [E] produced the document [d], then a second merge, with [E]
    again or with the entry [E'] of another revision, finds the entry and
    returns [d] itself: nothing is appended, and the list and the revision
    recorded in it stay as they are. *)
Theorem merge_idempotent (E E' : yaml) (existing : option yaml) (d : yaml) (found : bool) :
  hook_matches E = Ok true ->
  merge_config_data E existing = Ok (d, found) ->
  merge_config_data E (Some d) = Ok (d, true)
  /\ merge_config_data E' (Some d) = Ok (d, true).
Proof.
  intros HE H. split.
  - exact (merge_stable E E existing d found HE H).
  - exact (merge_stable E E' existing d found HE H).
Qed.

(** X4. A document that is neither empty nor a mapping cannot be merged. *)
Lemma merge_non_mapping_raises (E : yaml) (yaml_data : yaml) :
  Py.truthy yaml_data = true ->
  (forall m, yaml_data <> YMap m) ->
  merge_config_data E (Some yaml_data) = Err TypeError.
Proof.
  intros Ht Hm. unfold merge_config_data. rewrite Ht.
  destruct yaml_data as [[| b | z | s]|l|m]; cbn.
  - reflexivity.
  - reflexivity.
  - reflexivity.
  - now destruct (is_substring "repos" s).
  - now destruct (existsb (Py.is_str "repos") l).
  - now contradiction (Hm m).
Qed.

(** ** C2: what a merge leaves alone *)

(** *** Objects on the heap *)

Lemma nth_error_ext (h t : heap) (a : nat) (o : pyobj) :
  nth_error h a = Some o -> nth_error (h ++ t) a = Some o.
Proof.
  revert a. induction h as [|x h IH]; intros [|a]; simpl; try discriminate; auto.
Qed.

Lemma nth_error_bound (h : heap) (a : nat) (o : pyobj) :
  nth_error h a = Some o -> a < length h.
Proof.
  revert a. induction h as [|x h IH]; intros [|a]; simpl; try discriminate.
  - intros _. apply Nat.lt_0_succ.
  - intros H. apply -> Nat.succ_lt_mono. exact (IH a H).
Qed.

Lemma nth_error_first_new (h t : heap) (x : pyobj) :
  nth_error (h ++ x :: t) (length h) = Some x.
Proof. induction h as [|y h IH]; simpl; auto. Qed.

Lemma nth_error_second_new (h t : heap) (x y : pyobj) :
  nth_error (h ++ x :: y :: t) (S (length h)) = Some y.
Proof. induction h as [|z h IH]; simpl; auto. Qed.

Lemma nth_error_update_same (h : heap) (a : nat) (o o' : pyobj) :
  nth_error h a = Some o -> nth_error (Obj.update h a o') a = Some o'.
Proof.
  revert a. induction h as [|x h IH]; intros [|a]; simpl; try discriminate; auto.
Qed.

Lemma nth_error_update_other (h : heap) (a b : nat) (o : pyobj) :
  a <> b -> nth_error (Obj.update h a o) b = nth_error h b.
Proof.
  revert a b. induction h as [|x h IH]; intros [|a] [|b] Hab; simpl; auto.
  now contradiction Hab.
Qed.

Lemma update_new (h t : heap) (x o : pyobj) :
  Obj.update (h ++ x :: t) (length h) o = (h ++ o :: t)%list.
Proof. induction h as [|y h IH]; simpl; [reflexivity | now rewrite IH]. Qed.

Lemma obj_contains_key_dict_get (m : list (scalar * pyval)) (k : string) :
  existsb (fun kv => Py.key_is k (fst kv)) m
  = match Obj.dict_get m k with Some _ => true | None => false end.
Proof.
  induction m as [|[c v] m IH]; simpl; [reflexivity|].
  destruct (Py.key_is k c); simpl; [reflexivity | exact IH].
Qed.

Lemma obj_dict_set_absent (m : list (scalar * pyval)) (k : string) (v : pyval) :
  Obj.dict_get m k = None -> Obj.dict_set m k v = (m ++ [(SStr k, v)])%list.
Proof.
  induction m as [|[c w] m IH]; simpl; [reflexivity|].
  destruct (Py.key_is k c); [discriminate|].
  intros H. now rewrite IH.
Qed.

(** A test that succeeds reads objects that are there, and new objects
    do not change it. *)
Lemma hook_matches_obj_ext (h t : heap) (hook : pyval) (b : bool) :
  hook_matches_obj h hook = Ok b -> hook_matches_obj (h ++ t) hook = Ok b.
Proof.
  unfold hook_matches_obj, Obj.getitem, Obj.deref.
  destruct hook as [c|a]; [discriminate|].
  destruct (nth_error h a) as [[l|m]|] eqn:Ha; try discriminate.
  rewrite (nth_error_ext h t a _ Ha).
  destruct (Obj.dict_get m "repo") as [repo|]; [|discriminate]. cbn.
  destruct repo as [c|a']; [auto|]. cbn.
  destruct (nth_error h a') as [o|] eqn:Ha'; [|discriminate].
  now rewrite (nth_error_ext h t a' _ Ha').
Qed.

Lemma scan_hooks_obj_ext (h t : heap) (l : list pyval) :
  Forall (fun hook => hook_matches_obj h hook = Ok false) l ->
  scan_hooks_obj (h ++ t) l = Ok false.
Proof.
  induction 1 as [|hook l Hhook _ IH]; simpl; [reflexivity|].
  now rewrite (hook_matches_obj_ext h t hook false Hhook).
Qed.

(** The three ways [merge_objects] changes the heap. *)
Lemma merge_objects_fresh (cz : pyval) (h : heap) (existing : option pyval) :
  match existing with
  | None => True
  | Some yaml_data => Obj.truthy (h ++ [PDict []]) yaml_data = false
  end ->
  merge_objects cz h existing
  = Ok ((h ++ [PDict [(SStr "repos", PRef (S (length h)))]; PList [cz]])%list,
        PRef (length h), false).
Proof.
  intros H.
  assert (Hlen : length (h ++ [PDict []]) = S (length h))
    by (rewrite length_app, Nat.add_comm; reflexivity).
  assert (Hat : forall t, nth_error (h ++ PDict [] :: t) (length h) = Some (PDict []))
    by (intros t; apply nth_error_first_new).
  assert (Hset : Obj.setitem ((h ++ [PDict []]) ++ [PList [cz]]) (PRef (length h)) "repos"
                   (PRef (length (h ++ [PDict []])))
                 = Ok (h ++ [PDict [(SStr "repos", PRef (S (length h)))]; PList [cz]])%list).
  { unfold Obj.setitem. rewrite Hlen, <- app_assoc. cbn [app].
    now rewrite Hat, update_new. }
  unfold merge_objects, Obj.alloc. destruct existing as [yaml_data|].
  - rewrite H.
    assert (Hc : Obj.contains (h ++ [PDict []]) "repos" (PRef (length h)) = Ok false)
      by (unfold Obj.contains; now rewrite (Hat [])).
    rewrite Hc. cbn -[Obj.setitem]. now rewrite Hset.
  - now rewrite Hset.
Qed.

Lemma merge_objects_new_key (cz : pyval) (h : heap) (r : nat)
  (m : list (scalar * pyval)) :
  nth_error h r = Some (PDict m) ->
  m <> [] ->
  Obj.dict_get m "repos" = None ->
  merge_objects cz h (Some (PRef r))
  = Ok (Obj.update (h ++ [PDict []; PList [cz]]) r
          (PDict (m ++ [(SStr "repos", PRef (S (length h)))])),
        PRef r, false).
Proof.
  intros Hr Hm Hget.
  assert (Hlen : length (h ++ [PDict []]) = S (length h))
    by (rewrite length_app, Nat.add_comm; reflexivity).
  assert (Ht : Obj.truthy (h ++ [PDict []]) (PRef r) = true).
  { unfold Obj.truthy. rewrite (nth_error_ext h [PDict []] r _ Hr).
    destruct m; [contradiction | reflexivity]. }
  assert (Hc : Obj.contains (h ++ [PDict []]) "repos" (PRef r) = Ok false).
  { unfold Obj.contains. rewrite (nth_error_ext h [PDict []] r _ Hr).
    now rewrite obj_contains_key_dict_get, Hget. }
  unfold merge_objects, Obj.alloc. rewrite Ht, Hc. cbn -[Obj.setitem].
  unfold Obj.setitem. rewrite Hlen, <- app_assoc. cbn -[Obj.dict_set].
  rewrite (nth_error_ext h [PDict []; PList [cz]] r _ Hr).
  now rewrite (obj_dict_set_absent m "repos" _ Hget).
Qed.

Lemma merge_objects_append (cz : pyval) (h : heap) (r la : nat)
  (m : list (scalar * pyval)) (l : list pyval) :
  nth_error h r = Some (PDict m) ->
  Obj.dict_get m "repos" = Some (PRef la) ->
  nth_error h la = Some (PList l) ->
  Forall (fun hook => hook_matches_obj h hook = Ok false) l ->
  merge_objects cz h (Some (PRef r))
  = Ok (Obj.update (h ++ [PDict []]) la (PList (l ++ [cz])), PRef r, false).
Proof.
  intros Hr Hget Hla Hl.
  assert (Ht : Obj.truthy (h ++ [PDict []]) (PRef r) = true).
  { unfold Obj.truthy. rewrite (nth_error_ext h [PDict []] r _ Hr).
    destruct m; [discriminate | reflexivity]. }
  assert (Hc : Obj.contains (h ++ [PDict []]) "repos" (PRef r) = Ok true).
  { unfold Obj.contains. rewrite (nth_error_ext h [PDict []] r _ Hr).
    now rewrite obj_contains_key_dict_get, Hget. }
  assert (Hg : Obj.getitem (h ++ [PDict []]) (PRef r) "repos" = Ok (PRef la)).
  { unfold Obj.getitem, Obj.deref. rewrite (nth_error_ext h [PDict []] r _ Hr).
    now rewrite Hget. }
  assert (Hi : Obj.iter (h ++ [PDict []]) (PRef la) = Ok l).
  { unfold Obj.iter. now rewrite (nth_error_ext h [PDict []] la _ Hla). }
  assert (Ha : Obj.append (h ++ [PDict []]) (PRef la) cz
               = Ok (Obj.update (h ++ [PDict []]) la (PList (l ++ [cz])))).
  { unfold Obj.append. now rewrite (nth_error_ext h [PDict []] la _ Hla). }
  unfold merge_objects, Obj.alloc. rewrite Ht, Hc. cbn -[Obj.getitem Obj.iter Obj.append].
  rewrite Hg. cbn -[Obj.getitem Obj.iter Obj.append].
  rewrite Hi. cbn -[Obj.getitem Obj.iter Obj.append].
  rewrite (scan_hooks_obj_ext h [PDict []] l Hl). cbn -[Obj.getitem Obj.iter Obj.append].
  now rewrite Ha.
Qed.

(** C2, amended. For every document that is a mapping [m], the object at
    [r]: without a [repos] key, the merge adds the key last, referring to a
    new list that holds exactly the entry; the keys of [m] keep their
    order and the values they refer to, and no other list or mapping is
    changed. With a [repos] list, the object at [la], in which every entry
    has a [repo] the test can read and finds no [commitizen] in, the merge
    appends the entry to that list object and changes no other object:
    the mapping has the keys, the order and the values it had. (A key
    that is an alias of the [repos] list is the same object, and shows the
    entry as well.) *)
Theorem merge_objects_preserves (cz : pyval) (h : heap) (r : nat)
  (m : list (scalar * pyval)) :
  nth_error h r = Some (PDict m) ->
  (Obj.dict_get m "repos" = None ->
   exists h' root',
     merge_objects cz h (Some (PRef r)) = Ok (h', root', false) /\
     Obj.deref h' root'
     = Some (PDict (m ++ [(SStr "repos", PRef (S (length h)))])) /\
     nth_error h' (S (length h)) = Some (PList [cz]) /\
     (m <> [] -> root' = PRef r) /\
     (forall a o, nth_error h a = Some o -> a <> r \/ m = [] ->
                  nth_error h' a = Some o))
  /\
  (forall (la : nat) (l : list pyval),
     Obj.dict_get m "repos" = Some (PRef la) ->
     nth_error h la = Some (PList l) ->
     Forall (fun hook => hook_matches_obj h hook = Ok false) l ->
     exists h',
       merge_objects cz h (Some (PRef r)) = Ok (h', PRef r, false) /\
       nth_error h' la = Some (PList (l ++ [cz])) /\
       nth_error h' r = Some (PDict m) /\
       (forall a o, nth_error h a = Some o -> a <> la -> nth_error h' a = Some o)).
Proof.
  intros Hr. pose proof (nth_error_bound h r _ Hr) as Hlt. split.
  - intros Hget. destruct m as [|kv m].
    + eexists _, _. split.
      * apply merge_objects_fresh. unfold Obj.truthy.
        now rewrite (nth_error_ext h [PDict []] r _ Hr).
      * cbn [Obj.deref app]. rewrite nth_error_first_new, nth_error_second_new.
        split; [reflexivity|]. split; [reflexivity|]. split.
        -- intros Hne. now contradiction Hne.
        -- intros a o Ha _. now apply nth_error_ext.
    + eexists _, _. split.
      * apply (merge_objects_new_key cz h r (kv :: m) Hr); [discriminate | exact Hget].
      * cbn [Obj.deref].
        rewrite (nth_error_update_same _ r _ _
                   (nth_error_ext h [PDict []; PList [cz]] r _ Hr)).
        rewrite nth_error_update_other
          by (intros ->; lia).
        rewrite nth_error_second_new.
        split; [reflexivity|]. split; [reflexivity|]. split; [reflexivity|].
        intros a o Ha [Hne | Hnil]; [|discriminate].
        rewrite nth_error_update_other by auto. now apply nth_error_ext.
  - intros la l Hget Hla Hl. eexists. split.
    + exact (merge_objects_append cz h r la m l Hr Hget Hla Hl).
    + assert (Hne : la <> r) by (intros ->; rewrite Hr in Hla; discriminate).
      rewrite (nth_error_update_same _ la _ _ (nth_error_ext h [PDict []] la _ Hla)).
      rewrite (nth_error_update_other _ la r _ Hne).
      rewrite (nth_error_ext h [PDict []] r _ Hr).
      split; [reflexivity|]. split; [reflexivity|].
      intros a o Ha Hno. rewrite nth_error_update_other by auto.
      now apply nth_error_ext.
Qed.


Lemma nth_error_ext_inv (h : heap) (x o : pyobj) (a : nat) :
  nth_error (h ++ [x]) a = Some o ->
  nth_error h a = Some o \/ (a = length h /\ o = x).
Proof.
  revert a. induction h as [|y h IH]; intros [|a]; simpl.
  - intros [= <-]. now right.
  - destruct a; discriminate.
  - intros H. now left.
  - intros H. destruct (IH a H) as [H' | [-> ->]]; [now left | now right].
Qed.

(** The ways [merge_objects] can succeed. *)
Lemma merge_objects_inversion (cz : pyval) (h : heap) (existing : option pyval)
  (h' : heap) (root : pyval) (found : bool) :
  merge_objects cz h existing = Ok (h', root, found) ->
  (found = true /\ h' = (h ++ [PDict []])%list)
  \/ (found = false /\
      h' = (h ++ [PDict [(SStr "repos", PRef (S (length h)))]; PList [cz]])%list /\
      root = PRef (length h))
  \/ (found = false /\
      exists r m,
        existing = Some (PRef r) /\ root = PRef r /\
        nth_error h r = Some (PDict m) /\ Obj.dict_get m "repos" = None /\
        h' = Obj.update (h ++ [PDict []; PList [cz]]) r
               (PDict (m ++ [(SStr "repos", PRef (S (length h)))])))
  \/ (found = false /\
      exists r m la l,
        existing = Some (PRef r) /\ root = PRef r /\
        nth_error h r = Some (PDict m) /\
        Obj.dict_get m "repos" = Some (PRef la) /\
        nth_error h la = Some (PList l) /\
        h' = Obj.update (h ++ [PDict []]) la (PList (l ++ [cz]))).
Proof.
  intros H. destruct existing as [yaml_data|].
  2:{ rewrite (merge_objects_fresh cz h None I) in H. injection H as <- <- <-.
      right. left. auto. }
  destruct (Obj.truthy (h ++ [PDict []]) yaml_data) eqn:Ht.
  2:{ rewrite (merge_objects_fresh cz h (Some yaml_data) Ht) in H.
      injection H as <- <- <-. right. left. auto. }
  assert (Hlen : length (h ++ [PDict []]) = S (length h))
    by (rewrite length_app, Nat.add_comm; reflexivity).
  unfold merge_objects, Obj.alloc in H. rewrite Ht in H.
  destruct yaml_data as [c|r].
  { destruct c as [| b | z | s]; cbn in H; try discriminate.
    destruct (is_substring "repos" s); cbn in H; discriminate. }
  unfold Obj.truthy in Ht. unfold Obj.contains in H.
  destruct (nth_error (h ++ [PDict []]) r) as [[l0|m]|] eqn:Hr1; cbn -[existsb] in H.
  - destruct (existsb (Obj.is_str "repos") l0); cbn in H.
    + unfold Obj.getitem, Obj.deref in H. rewrite Hr1 in H. discriminate.
    + unfold Obj.setitem in H.
      rewrite (nth_error_ext (h ++ [PDict []]) [PList [cz]] r _ Hr1) in H.
      discriminate.
  - assert (Hr : nth_error h r = Some (PDict m)).
    { destruct (nth_error_ext_inv h _ _ r Hr1) as [Hr | [_ [= ->]]]; [exact Hr|].
      discriminate. }
    rewrite obj_contains_key_dict_get in H.
    destruct (Obj.dict_get m "repos") as [repos|] eqn:Hget; cbn -[Obj.setitem] in H.
    + unfold Obj.getitem, Obj.deref in H. rewrite Hr1, Hget in H. cbn in H.
      destruct (Obj.iter (h ++ [PDict []]) repos) as [hooks|] eqn:Hiter; cbn in H;
        [|discriminate].
      destruct (scan_hooks_obj (h ++ [PDict []]) hooks) as [[|]|] eqn:Hscan; cbn in H;
        [| |discriminate].
      * injection H as <- <- <-. left. auto.
      * unfold Obj.append in H. destruct repos as [c|la]; [discriminate|].
        destruct (nth_error (h ++ [PDict []]) la) as [[l|m']|] eqn:Hla1;
          try discriminate.
        injection H as <- <- <-. right. right. right. split; [reflexivity|].
        exists r, m, la, l. repeat split; auto.
        destruct (nth_error_ext_inv h _ _ la Hla1) as [Hla | [_ [=]]]. exact Hla.
    + unfold Obj.setitem in H. rewrite Hlen, <- app_assoc in H. cbn [app] in H.
      rewrite (nth_error_ext h [PDict []; PList [cz]] r _ Hr) in H. cbn in H.
      injection H as <- <- <-. right. right. left. split; [reflexivity|].
      exists r, m. repeat split; auto.
      now rewrite (obj_dict_set_absent m "repos" _ Hget).
  - cbn in H. discriminate.
Qed.

(** *** The claim as worded *)

(** On the document with the alias the merge appends to the one list
    object: the list at address 1, the value of [base] as well as of
    [repos], was empty and holds the entry afterwards. *)
Example merge_aliased_document :
  merge_objects (PRef 2) aliased_heap (Some (PRef 0))
  = Ok ([ PDict [ (SStr "base", PRef 1); (SStr "repos", PRef 1) ];
          PList [ PRef 2 ];
          PDict [ (SStr "repo",
                   PScalar (SStr "https://github.com/commitizen-tools/commitizen")) ];
          PDict [] ],
        PRef 0, false).
Proof. reflexivity. Qed.

(** A [repos] list with no entry that matches, whose one element has no
    [repo]: the test raises and there is no merged document. *)
Example merge_unreadable_entry_object :
  merge_objects (PRef 2)
    [ PDict [ (SStr "repos", PRef 1) ]; PList [ PRef 3 ];
      PDict [ (SStr "repo",
               PScalar (SStr "https://github.com/commitizen-tools/commitizen")) ];
      PDict [] ]
    (Some (PRef 0))
  = Err (KeyError "repo").
Proof. reflexivity. Qed.

(** A document that is a list has no [repos] key, and the assignment of
    line 170 raises. *)
Example merge_list_document_object :
  merge_objects (PRef 2)
    [ PList [ PScalar (SStr "fail_fast") ]; PList [];
      PDict [ (SStr "repo",
               PScalar (SStr "https://github.com/commitizen-tools/commitizen")) ] ]
    (Some (PRef 0))
  = Err TypeError.
Proof. reflexivity. Qed.

(** C2, the claim as worded fails: in the document [base: &r []],
    [repos: *r] no entry matches, the entry is appended, and the value of
    the unrelated key [base] is no longer the empty list. *)
Lemma merge_alias_changes_other_key : ~ merge_frame_as_worded.
Proof.
  intros H.
  destruct (H (PRef 2) aliased_heap (PRef 0)) as [_ HB].
  destruct (HB [ (SStr "base", PRef 1); (SStr "repos", PRef 1) ] (PRef 1) []
              eq_refl eq_refl eq_refl)
    as (h' & m' & Hm & _ & _ & Hkeys).
  - intros hook [].
  - rewrite merge_aliased_document in Hm. injection Hm as <-.
    destruct (Hkeys (SStr "base") (PRef 1) (or_introl eq_refl) eq_refl) as [_ Hv].
    discriminate Hv.
Qed.

(** On a document loaded without aliases the merge of objects and the
    merge of trees give the same document. *)
Example merge_objects_loaded_document :
  let (h, cz) := load_tree (cz_hook_config "3.0.0") [] in
  let (h, doc) := load_tree (YMap foreign_document) h in
  match merge_objects cz h (Some doc) with
  | Ok (h', root, found) =>
      option_map (fun d => (d, found)) (tree_of 10 h' root)
  | Err _ => None
  end
  = match merge_config_data (cz_hook_config "3.0.0") (Some (YMap foreign_document)) with
    | Ok r => Some r
    | Err _ => None
    end.
Proof. reflexivity. Qed.

(** ** C9: malformed entries *)

Lemma malformed_entry_raises (hook : yaml) :
  malformed_entry hook = true -> exists e, hook_matches hook = Err e.
Proof.
  destruct hook as [c|l|m]; cbn.
  - intros _. now exists TypeError.
  - intros _. now exists TypeError.
  - destruct (Py.dict_get m "repo"); [discriminate|].
    intros _. now exists (KeyError "repo").
Qed.

Lemma scan_hooks_raises (pre : list yaml) (bad : yaml) (post : list yaml) :
  Forall (fun hook => hook_matches hook <> Ok true) pre ->
  malformed_entry bad = true ->
  exists e, scan_hooks (pre ++ bad :: post) = Err e.
Proof.
  intros Hpre Hbad. induction Hpre as [|x pre Hx _ IH]; simpl.
  - destruct (malformed_entry_raises bad Hbad) as [e ->]. now exists e.
  - destruct (hook_matches x) as [[|]|e] eqn:Ex; cbn.
    + now contradiction Hx.
    + exact IH.
    + now exists e.
Qed.

(** C9, the claim as worded fails: after an entry the scan recognises,
    the loop has left through [break] and a malformed element behind it
    is never read. *)
Lemma merge_malformed_after_match : ~ malformed_always_raises.
Proof.
  intros H.
  destruct (H (cz_hook_config "3.0.0")
              [(SStr "repos", YSeq [cz_hook_config "2.0.0"; YMap []])]
              [cz_hook_config "2.0.0"; YMap []]
              (YMap []) eq_refl (or_intror (or_introl eq_refl)) eq_refl)
    as [e He].
  vm_compute in He. discriminate He.
Qed.

(** C9, amended. For every document whose [repos] list holds a malformed
    element (not a mapping, or a mapping without [repo]) with no entry
    recognised by the scan before it, the merge raises an exception and
    produces no document. *)
Theorem merge_malformed_raises (E : yaml) (m : dict) (pre : list yaml) (bad : yaml)
  (post : list yaml) :
  Py.dict_get m "repos" = Some (YSeq (pre ++ bad :: post)) ->
  malformed_entry bad = true ->
  Forall (fun hook => hook_matches hook <> Ok true) pre ->
  exists e, merge_config_data E (Some (YMap m)) = Err e.
Proof.
  intros Hget Hbad Hpre. unfold merge_config_data.
  assert (Ht : Py.truthy (YMap m) = true) by (destruct m; [discriminate | reflexivity]).
  rewrite Ht. cbn. rewrite contains_key_dict_get, Hget. cbn.
  destruct (scan_hooks_raises pre bad post Hpre Hbad) as [e ->].
  now exists e.
Qed.

(** ** Substrings *)

Lemma prefix_append (n h : string) :
  String.prefix n h = true <-> exists post, h = n ++ post.
Proof.
  revert h. induction n as [|a n IH]; intros h.
  - split; [intros _; now exists h | intros _; now destruct h].
  - destruct h as [|b h]; simpl.
    + split; [discriminate | intros [post H]; discriminate].
    + destruct (ascii_dec a b) as [->|Hab].
      * rewrite IH. split; intros [post H]; exists post.
        -- now rewrite H.
        -- now injection H.
      * split; [discriminate|]. intros [post H]. injection H as H1 _.
        now contradiction Hab.
Qed.

(** [is_substring] is Python's [in] on strings: a contiguous occurrence. *)
Lemma is_substring_occurrence (n h : string) :
  is_substring n h = true <-> exists pre post, h = pre ++ n ++ post.
Proof.
  split.
  - induction h as [|b h IH]; cbn [is_substring].
    + destruct (String.prefix n "") eqn:Hp; [|simpl; discriminate].
      intros _. apply prefix_append in Hp. destruct Hp as [post Hp].
      now exists "", post.
    + destruct (String.prefix n (String b h)) eqn:Hp.
      * intros _. apply prefix_append in Hp. destruct Hp as [post Hp].
        now exists "", post.
      * simpl. intros H. destruct (IH H) as (pre & post & ->).
        now exists (String b pre), post.
  - intros (pre & post & ->). induction pre as [|b pre IH].
    + simpl. assert (Hp : String.prefix n (n ++ post) = true)
        by (apply prefix_append; now exists post).
      change ("" ++ n ++ post) with (n ++ post).
      destruct (n ++ post); cbn [is_substring]; now rewrite Hp.
    + change (String b pre ++ n ++ post) with (String b (pre ++ n ++ post)).
      cbn [is_substring]. rewrite IH.
      now destruct (String.prefix n (String b (pre ++ n ++ post))).
Qed.

(** ** More on the merge *)

(** The ways a merge can succeed. *)
Lemma merge_inversion (E : yaml) (existing : option yaml) (d : yaml) (found : bool) :
  merge_config_data E existing = Ok (d, found) ->
  exists m,
    base_mapping existing = Some m /\
    ((found = true /\ d = YMap m /\
      exists repos hooks,
        Py.dict_get m "repos" = Some repos /\ Py.iter repos = Ok hooks /\
        scan_hooks hooks = Ok true)
     \/ (found = false /\
         exists l,
           Py.dict_get m "repos" = Some (YSeq l) /\ scan_hooks l = Ok false /\
           d = YMap (Py.dict_set m "repos" (YSeq (l ++ [E]))))
     \/ (found = false /\ Py.dict_get m "repos" = None /\
         d = YMap (Py.dict_set m "repos" (YSeq [E])))).
Proof.
  intros H. destruct existing as [yaml_data|].
  - unfold merge_config_data in H. unfold base_mapping.
    destruct (Py.truthy yaml_data) eqn:Ht.
    + destruct yaml_data as [c|l|m].
      * destruct c; cbn in H; try discriminate.
        destruct (is_substring "repos" s); discriminate.
      * cbn in H. destruct (existsb (Py.is_str "repos") l); discriminate.
      * exists m. split; [reflexivity|].
        cbn in H. rewrite contains_key_dict_get in H.
        destruct (Py.dict_get m "repos") as [repos|] eqn:Hget; cbn in H.
        -- destruct (Py.iter repos) as [hooks|] eqn:Hiter; cbn in H; try discriminate.
           destruct (scan_hooks hooks) as [[|]|] eqn:Hscan; cbn in H; try discriminate.
           ++ injection H as <- <-. left. repeat split. now exists repos, hooks.
           ++ destruct repos as [c|l|m']; cbn in H; try discriminate.
              injection H as <- <-. cbn in Hiter. injection Hiter as <-.
              right. left. split; [reflexivity|]. now exists l.
        -- injection H as <- <-. right. right. now repeat split.
    + exists []. split; [reflexivity|]. cbn in H. injection H as <- <-.
      right. right. now repeat split.
  - exists []. split; [reflexivity|]. cbn in H. injection H as <- <-.
    right. right. now repeat split.
Qed.

(** X1. Whatever the file held, a merge that succeeds returns a mapping whose
    [repos] list holds an entry the scan recognises. *)
Theorem merge_result_has_entry (E : yaml) (existing : option yaml) (d : yaml)
  (found : bool) :
  hook_matches E = Ok true ->
  merge_config_data E existing = Ok (d, found) ->
  exists m' repos hooks,
    d = YMap m' /\ Py.dict_get m' "repos" = Some repos /\
    Py.iter repos = Ok hooks /\ scan_hooks hooks = Ok true.
Proof.
  intros HE H. destruct (merge_inversion E existing d found H) as (m & _ & Hcases).
  destruct Hcases as [(_ & -> & repos & hooks & Hget & Hiter & Hscan)
                     | [(_ & l & _ & Hscan & ->) | (_ & _ & ->)]].
  - now exists m, repos, hooks.
  - exists (Py.dict_set m "repos" (YSeq (l ++ [E]))), (YSeq (l ++ [E])), (l ++ [E])%list.
    repeat split; [apply dict_get_set | exact (scan_hooks_last E l HE Hscan)].
  - exists (Py.dict_set m "repos" (YSeq [E])), (YSeq [E]), [E].
    repeat split; [apply dict_get_set | exact (scan_hooks_last E [] HE eq_refl)].
Qed.

(** X2. A merge that succeeds changes at most one of the objects that
    were there, whatever refers to them. When the entry is found, every
    object is as it was. Otherwise one of three: the result is a new
    mapping and every object is as it was (no file, or a document Python
    takes as false); or the document is a mapping without [repos], which
    gets the key last, with a new list that holds exactly the entry, and
    no other object is changed; or the [repos] list object of the document
    gets the entry as its last element and no other object is changed,
    the document mapping itself included. *)
Theorem merge_objects_changes_one_object (cz : pyval) (h : heap)
  (existing : option pyval) (h' : heap) (root : pyval) (found : bool) :
  merge_objects cz h existing = Ok (h', root, found) ->
  (found = true ->
   forall a o, nth_error h a = Some o -> nth_error h' a = Some o)
  /\
  (found = false ->
   (root = PRef (length h) /\
    nth_error h' (length h) = Some (PDict [(SStr "repos", PRef (S (length h)))]) /\
    nth_error h' (S (length h)) = Some (PList [cz]) /\
    forall a o, nth_error h a = Some o -> nth_error h' a = Some o)
   \/ (exists r m,
         existing = Some (PRef r) /\ root = PRef r /\
         nth_error h r = Some (PDict m) /\ Obj.dict_get m "repos" = None /\
         nth_error h' r = Some (PDict (m ++ [(SStr "repos", PRef (S (length h)))])) /\
         nth_error h' (S (length h)) = Some (PList [cz]) /\
         forall a o, nth_error h a = Some o -> a <> r -> nth_error h' a = Some o)
   \/ (exists r m la l,
         existing = Some (PRef r) /\ root = PRef r /\
         nth_error h r = Some (PDict m) /\
         Obj.dict_get m "repos" = Some (PRef la) /\
         nth_error h la = Some (PList l) /\
         nth_error h' la = Some (PList (l ++ [cz])) /\
         forall a o, nth_error h a = Some o -> a <> la -> nth_error h' a = Some o)).
Proof.
  intros H.
  destruct (merge_objects_inversion cz h existing h' root found H)
    as [[-> ->]
       | [(-> & -> & ->)
         | [(-> & r & m & -> & -> & Hr & Hget & ->)
           | (-> & r & m & la & l & -> & -> & Hr & Hget & Hla & ->)]]].
  - split; [|discriminate]. intros _ a o Ha. now apply nth_error_ext.
  - split; [discriminate|]. intros _. left.
    rewrite nth_error_first_new, nth_error_second_new.
    repeat split; try reflexivity. intros a o Ha. now apply nth_error_ext.
  - split; [discriminate|]. intros _. right. left. exists r, m.
    pose proof (nth_error_bound h r _ Hr) as Hlt.
    rewrite (nth_error_update_same _ r _ _
               (nth_error_ext h [PDict []; PList [cz]] r _ Hr)).
    rewrite nth_error_update_other by (intros ->; lia).
    rewrite nth_error_second_new.
    repeat split; try reflexivity; try assumption.
    intros a o Ha Hne. rewrite nth_error_update_other by auto.
    now apply nth_error_ext.
  - split; [discriminate|]. intros _. right. right. exists r, m, la, l.
    rewrite (nth_error_update_same _ la _ _ (nth_error_ext h [PDict []] la _ Hla)).
    repeat split; try reflexivity; try assumption.
    intros a o Ha Hne. rewrite nth_error_update_other by auto.
    now apply nth_error_ext.
Qed.

(** X3. A document Python takes as false is null, [false], [0], the empty
    string, list or mapping; the merge treats a file that holds one like
    no file and writes a fresh document over it. *)
Theorem merge_falsy_document (E : yaml) (yaml_data : yaml) :
  Py.truthy yaml_data = false ->
  (yaml_data = YScalar SNull \/ yaml_data = YScalar (SBool false) \/
   yaml_data = YScalar (SInt 0) \/ yaml_data = YStr "" \/
   yaml_data = YSeq [] \/ yaml_data = YMap [])
  /\ merge_config_data E (Some yaml_data)
     = Ok (YMap [(SStr "repos", YSeq [E])], false)
  /\ merge_config_data E (Some yaml_data) = merge_config_data E None.
Proof.
  intros Ht. split.
  - destruct yaml_data as [[| b | z | s]|l|m]; cbn in Ht.
    + auto.
    + subst b. auto.
    + destruct (Z.eqb_spec z 0); [subst z; auto 6 | discriminate].
    + destruct (String.eqb_spec s ""); [subst s; auto 6 | discriminate].
    + destruct l; [auto 6 | discriminate].
    + destruct m; [auto 7 | discriminate].
  - unfold merge_config_data. rewrite Ht. split; reflexivity.
Qed.

(** X5. A [repos] value that is not a list makes the merge raise: the loop
    cannot go through it, cannot read its elements, or cannot append to
    it. *)
Theorem merge_repos_not_sequence_raises (E : yaml) (m : dict) (v : yaml) :
  Py.dict_get m "repos" = Some v ->
  (forall l, v <> YSeq l) ->
  merge_config_data E (Some (YMap m)) = Err TypeError
  \/ merge_config_data E (Some (YMap m)) = Err AttributeError.
Proof.
  intros Hget Hv. unfold merge_config_data.
  assert (Ht : Py.truthy (YMap m) = true) by (destruct m; [discriminate | reflexivity]).
  rewrite Ht. cbn. rewrite contains_key_dict_get, Hget. cbn.
  destruct v as [[| b | z | s]|l|m']; cbn; auto.
  - destruct s as [|a s]; cbn; auto.
  - now contradiction (Hv l).
  - destruct m' as [|[k w] m']; cbn; auto.
Qed.

(** X6. An entry whose [repo] is a string counts as the tool's own exactly
    when that string has [commitizen] somewhere in it; the revision and
    the hooks of the entry are not looked at. *)
Theorem hook_matches_substring (m : dict) (s : string) :
  Py.dict_get m "repo" = Some (YStr s) ->
  (hook_matches (YMap m) = Ok true <-> exists pre post, s = pre ++ "commitizen" ++ post)
  /\ (hook_matches (YMap m) = Ok false <-> is_substring "commitizen" s = false).
Proof.
  intros Hget.
  assert (Hm : hook_matches (YMap m) = Ok (is_substring "commitizen" s))
    by (unfold hook_matches; cbn; rewrite Hget; reflexivity).
  rewrite Hm. rewrite <- (is_substring_occurrence "commitizen" s).
  destruct (is_substring "commitizen" s); repeat split; congruence.
Qed.

(** X7. The first entry the scan recognises decides: when only entries that
    test false come before it, the document is returned as it is,
    whatever follows in the list. *)
Theorem merge_first_match_wins (E : yaml) (m : dict) (pre : list yaml) (hit : yaml)
  (post : list yaml) :
  Py.dict_get m "repos" = Some (YSeq (pre ++ hit :: post)) ->
  Forall (fun hook => hook_matches hook = Ok false) pre ->
  hook_matches hit = Ok true ->
  merge_config_data E (Some (YMap m)) = Ok (YMap m, true).
Proof.
  intros Hget Hpre Hhit.
  apply (merge_found E m (YSeq (pre ++ hit :: post)) (pre ++ hit :: post) Hget eq_refl).
  rewrite (scan_hooks_app pre (hit :: post) (scan_hooks_none pre Hpre)).
  simpl. now rewrite Hhit.
Qed.

(** ** The install command as a string *)

Lemma string_app_assoc (a b c : string) : (a ++ b) ++ c = a ++ b ++ c.
Proof. induction a as [|x a IH]; simpl; [reflexivity | now rewrite IH]. Qed.

Lemma string_app_nil_r (a : string) : a ++ "" = a.
Proof. induction a as [|x a IH]; simpl; [reflexivity | now rewrite IH]. Qed.

(** Joining by the empty string puts the pieces one after the other. *)
Lemma concat_empty_cons (x : string) (l : list string) :
  String.concat "" (x :: l) = x ++ String.concat "" l.
Proof.
  destruct l as [|y l]; simpl; [now rewrite string_app_nil_r | reflexivity].
Qed.

Lemma concat_empty_app (l l' : list string) :
  String.concat "" (l ++ l') = String.concat "" l ++ String.concat "" l'.
Proof.
  induction l as [|x l IH]; [reflexivity|].
  change ((x :: l) ++ l')%list with (x :: (l ++ l'))%list.
  now rewrite !concat_empty_cons, IH, string_app_assoc.
Qed.

(** X8. Whatever the hook types are, a type that is not the last is run
    together with the flag that follows it: the command string is the
    command for the types before it, then [--hook-type], the type, the
    next [--hook-type] with nothing in between, the next type and the
    rest; so the type, [--hook-type ] and the next type stand in the
    string as one piece. *)
Theorem install_cmd_str_runs_together (before : list string) (ty next : string)
  (after : list string) :
  install_cmd_str (before ++ ty :: next :: after)
  = install_cmd_str before ++ "--hook-type " ++ ty ++ "--hook-type " ++ next
    ++ String.concat "" (map (fun ty => "--hook-type " ++ ty) after)
  /\ is_substring (ty ++ "--hook-type " ++ next)
       (install_cmd_str (before ++ ty :: next :: after)) = true.
Proof.
  assert (Heq : install_cmd_str (before ++ ty :: next :: after)
                = install_cmd_str before ++ "--hook-type " ++ ty ++ "--hook-type "
                  ++ next
                  ++ String.concat "" (map (fun ty => "--hook-type " ++ ty) after)).
  { unfold install_cmd_str.
    rewrite map_app, concat_empty_app. cbn [map].
    rewrite !concat_empty_cons, !string_app_assoc. reflexivity. }
  split; [exact Heq|].
  rewrite Heq. apply is_substring_occurrence.
  exists (install_cmd_str before ++ "--hook-type "),
         (String.concat "" (map (fun ty => "--hook-type " ++ ty) after)).
  now rewrite !string_app_assoc.
Qed.

(** ** Runs *)

Lemma run_bind {S A B : Type} (h : handler S) (p : prog A) (f : A -> prog B) (s : S) :
  run h (prog_bind p f) s
  = match run h p s with
    | (Ok a, s1, t1) =>
        let '(r, s2, t2) := run h (f a) s1 in (r, s2, (t1 ++ t2)%list)
    | (Err e, s1, t1) => (Err e, s1, t1)
    end.
Proof.
  revert s. induction p as [a|e|X ev k IH]; intros s; simpl.
  - now destruct (run h (f a) s) as [[r s2] t2].
  - reflexivity.
  - destruct (h X ev s) as [x s1]. rewrite IH.
    destruct (run h (k x) s1) as [[[a|e] s2] t1]; [|reflexivity].
    now destruct (run h (f a) s2) as [[r s3] t2].
Qed.

(** A run ends in the state and with the trace its handler replies. *)
Lemma run_replies {S A : Type} (h : handler S) (p : prog A) (s : S) :
  replies h s (trace_of (run h p s)) (state_of (run h p s)).
Proof.
  revert s. induction p as [a|e|X ev k IH]; intros s; simpl; try reflexivity.
  destruct (h X ev s) as [x s1] eqn:Hx.
  specialize (IH x s1). destruct (run h (k x) s1) as [[r s2] tr].
  simpl in *. exists s1. split; [exact Hx | exact IH].
Qed.

#[local] Arguments latest_tag_question : simpl never.
#[local] Arguments String.append : simpl never.

(** Follow a run along the replies at hand. *)
Ltac follow :=
  cbn;
  repeat match goal with
    | H : ?h _ ?ev ?s = (_, _) |- context [?h _ ?ev ?s] => rewrite H; cbn
    | H : nonempty ?a = _ |- context [nonempty ?a] => rewrite H; cbn
    | H : accepted ?c = _ |- context [accepted ?c] => rewrite H; cbn
    end.

Ltac script H :=
  cbn in H;
  repeat match type of H with
    | exists _, _ => let s := fresh "s" in let E := fresh "E" in destruct H as (s & E & H)
    end;
  try subst.

(** ** C3: no tag *)

(** C3. Whenever the first query finds no latest tag, or the latest tag is
    declined and the enumeration that follows is empty, [_ask_tag] returns
    ["0.0.1"]; the run consists of the queries, the declined confirmation
    if any, and the warning, and so holds no list selection. *)
Theorem ask_tag_no_tags {S : Type} (h : handler S) (s0 s' : S) :
  (forall a : option string,
     nonempty a = None ->
     replies h s0 [Entry GetLatestTagName a;
                   Entry (Out OutError no_tag_warning) tt] s' ->
     run h _ask_tag s0
     = (Ok "0.0.1", s',
        [Entry GetLatestTagName a; Entry (Out OutError no_tag_warning) tt])
     /\ existsb is_select (trace_of (run h _ask_tag s0)) = false)
  /\
  (forall (a : option string) (t : string) (c : option bool),
     nonempty a = Some t ->
     accepted c = false ->
     replies h s0 [Entry GetLatestTagName a;
                   Entry (Confirm (latest_tag_question t) (Some false)) c;
                   Entry GetTagNames [];
                   Entry (Out OutError no_tag_warning) tt] s' ->
     run h _ask_tag s0
     = (Ok "0.0.1", s',
        [Entry GetLatestTagName a;
         Entry (Confirm (latest_tag_question t) (Some false)) c;
         Entry GetTagNames [];
         Entry (Out OutError no_tag_warning) tt])
     /\ existsb is_select (trace_of (run h _ask_tag s0)) = false).
Proof.
  split.
  - intros a Ha H.
    assert (Hrun : run h _ask_tag s0
                   = (Ok "0.0.1", s',
                      [Entry GetLatestTagName a;
                       Entry (Out OutError no_tag_warning) tt])).
    { script H. unfold _ask_tag. follow. reflexivity. }
    split; [exact Hrun | now rewrite Hrun].
  - intros a t c Ha Hc H.
    assert (Hrun : run h _ask_tag s0
                   = (Ok "0.0.1", s',
                      [Entry GetLatestTagName a;
                       Entry (Confirm (latest_tag_question t) (Some false)) c;
                       Entry GetTagNames [];
                       Entry (Out OutError no_tag_warning) tt])).
    { script H. unfold _ask_tag. follow. reflexivity. }
    split; [exact Hrun | now rewrite Hrun].
Qed.

(** ** C6 and C7: the tag format *)

(** C6. For every tag, when the free-form prompt is reached (the tag does
    not start with [v], or the proposed format was not accepted) and its
    answer is absent or empty, [_ask_tag_format] returns ["$version"]; when
    the answer is a non-empty string, it returns that string as entered,
    whatever it contains. *)
Theorem ask_tag_format_free_form {S : Type} (h : handler S) (s0 s' : S)
  (tag : string) (asked : trace) (a : option string) :
  (String.prefix "v" tag = false /\ asked = [])
  \/ (String.prefix "v" tag = true /\
      exists c, accepted c = false /\
                asked = [Entry (Confirm tag_format_question None) c]) ->
  replies h s0 (asked ++ [Entry (Text tag_format_prompt) a])%list s' ->
  exists r,
    run h (_ask_tag_format tag) s0
    = (r, s', (asked ++ [Entry (Text tag_format_prompt) a])%list)
    /\ (a = None \/ a = Some "" -> r = Ok "$version")
    /\ (forall entered, a = Some entered -> entered <> "" -> r = Ok entered).
Proof.
  intros Hasked H.
  assert (Hr : exists r,
             match nonempty a with None => Ok "$version" | Some f => Ok f end = r
             /\ (a = None \/ a = Some "" -> r = Ok "$version")
             /\ (forall entered, a = Some entered -> entered <> "" -> r = Ok entered)).
  { eexists. split; [reflexivity|]. split.
    - intros [-> | ->]; reflexivity.
    - intros entered -> Hne. cbn.
      destruct (String.eqb_spec entered ""); [contradiction | reflexivity]. }
  destruct Hr as (r & Hr & Hempty & Hentered).
  exists r. split; [|split; assumption].
  destruct Hasked as [[Hv ->] | [Hv (c & Hc & ->)]]; script H;
    unfold _ask_tag_format; rewrite Hv; follow;
    now destruct (nonempty a).
Qed.

(** C7. For every tag that starts with [v], [_ask_tag_format] first asks
    to confirm the format ["v$version"], and when the confirmation is
    accepted it returns ["v$version"]; the run holds that confirmation and
    nothing else, so the free-form prompt is not shown. *)
Theorem ask_tag_format_v {S : Type} (h : handler S) (s0 s' : S) (tag : string) :
  String.prefix "v" tag = true ->
  replies h s0 [Entry (Confirm tag_format_question None) (Some true)] s' ->
  run h (_ask_tag_format tag) s0
  = (Ok "v$version", s', [Entry (Confirm tag_format_question None) (Some true)])
  /\ existsb is_text (trace_of (run h (_ask_tag_format tag) s0)) = false
  /\ is_substring "v$version" tag_format_question = true
  /\ (forall s : S, exists c rest,
        trace_of (run h (_ask_tag_format tag) s)
        = Entry (Confirm tag_format_question None) c :: rest).
Proof.
  intros Hv H.
  assert (Hrun : run h (_ask_tag_format tag) s0
                 = (Ok "v$version", s',
                    [Entry (Confirm tag_format_question None) (Some true)])).
  { script H. unfold _ask_tag_format. rewrite Hv. follow. reflexivity. }
  split; [exact Hrun|]. split; [now rewrite Hrun|]. split.
  - reflexivity.
  - intros s. unfold _ask_tag_format. rewrite Hv. cbn.
    destruct (h _ (Confirm tag_format_question None) s) as [c s1].
    exists c. cbn.
    match goal with
    | |- context [run h ?p s1] => destruct (run h p s1) as [[r s2] tr]
    end.
    now exists tr.
Qed.

(** ** The wizard as a whole *)

Lemma store_free_bind {A B : Type} (p : prog A) (f : A -> prog B) :
  store_free p -> (forall a, store_free (f a)) -> store_free (prog_bind p f).
Proof.
  intros Hp Hf. induction Hp as [a|e|X ev k Hs Hi _ IH]; simpl.
  - apply Hf.
  - constructor.
  - now constructor.
Qed.

Lemma store_free_run {S A : Type} (h : handler S) (p : prog A) (s : S) :
  store_free p ->
  set_keys (trace_of (run h p s)) = [] /\ inits (trace_of (run h p s)) = [].
Proof.
  intros Hp. revert s. induction Hp as [a|e|X ev k Hs Hi _ IH]; intros s; simpl; auto.
  destruct (h X ev s) as [x s1]. specialize (IH x s1).
  destruct (run h (k x) s1) as [[r s2] tr]. unfold set_keys, inits in *. simpl in *.
  rewrite Hs, Hi. exact IH.
Qed.

Ltac store_free_step :=
  match goal with
  | |- store_free (Ret _) => constructor
  | |- store_free (Throw _) => constructor
  | |- store_free (Vis _ _) => apply store_free_vis; [reflexivity | reflexivity | intros ?]
  | |- store_free (prog_bind _ _) => apply store_free_bind; [| intros ?]
  | |- store_free (trigger _) => unfold trigger
  | |- store_free (lift ?r) => destruct r; cbn
  | |- store_free (match ?x with _ => _ end) => destruct x; cbn
  | |- store_free (if ?x then _ else _) => destruct x; cbn
  | |- store_free (let (_, _) := ?x in _) => destruct x; cbn
  end.

Lemma ask_tag_store_free : store_free _ask_tag.
Proof. unfold _ask_tag. cbn. repeat store_free_step. Qed.

Lemma ask_tag_format_store_free (tag : string) : store_free (_ask_tag_format tag).
Proof. unfold _ask_tag_format. cbn. repeat store_free_step. Qed.

Lemma exec_install_store_free (hook_types : list string) :
  store_free (_exec_install_pre_commit_hook hook_types).
Proof. unfold _exec_install_pre_commit_hook. cbn. repeat store_free_step. Qed.

Lemma install_store_free (version : string) (hook_types : option (list string)) :
  store_free (_install_pre_commit_hook version hook_types).
Proof.
  unfold _install_pre_commit_hook, _search_pre_commit. cbn.
  repeat first [apply exec_install_store_free | store_free_step].
Qed.

#[local] Arguments _ask_tag : simpl never.
#[local] Arguments _ask_tag_format : simpl never.
#[local] Arguments _install_pre_commit_hook : simpl never.

Section Wizard.

Variables config_files registry_keys : list string.
Variable __version__ : string.
Variable Version_public : string -> result string.

Abbreviation call := (__call__ config_files registry_keys __version__ Version_public).
Abbreviation opening := (wizard_opening config_files registry_keys).

(** An exception of [_ask_tag] leaves [__call__] as it is. *)
Lemma call_ask_tag_raises {S : Type} (h : handler S) (sA s0 s' : S)
  (self_config : config) (p : string) (n : option string) (e : exn) (trT : trace) :
  nonempty (config_path self_config) = None ->
  replies h sA (opening self_config p n) s0 ->
  run h _ask_tag s0 = (Err e, s', trT) ->
  run h (call self_config) sA = (Err e, s', (opening self_config p n ++ trT)%list).
Proof.
  intros Hpath H Htag. script H. unfold __call__. rewrite Hpath.
  unfold _ask_config_path, _ask_name. follow.
  rewrite run_bind, Htag. reflexivity.
Qed.

(** ** C4: a tag is required *)

(** C4. When the latest tag is not confirmed, the enumeration that
    follows is not empty and the list selection is left without an
    answer, [_ask_tag] raises [NoAnswersError "Tag is required!"] and
    returns no tag; inside the wizard the exception leaves [__call__],
    no key is set, and the command does not exit with success. *)
Theorem ask_tag_required {S : Type} (h : handler S) (s0 s' : S)
  (a : option string) (t : string) (c : option bool)
  (tags choices : list string) (sel : option string) :
  nonempty a = Some t ->
  accepted c = false ->
  tags <> [] ->
  nonempty sel = None ->
  replies h s0 [Entry GetLatestTagName a;
                Entry (Confirm (latest_tag_question t) (Some false)) c;
                Entry GetTagNames tags;
                Entry GetTagNames choices;
                Entry (Select "Please choose the latest tag: " choices None) sel] s' ->
  run h _ask_tag s0
  = (Err (NoAnswersError "Tag is required!"), s',
     [Entry GetLatestTagName a;
      Entry (Confirm (latest_tag_question t) (Some false)) c;
      Entry GetTagNames tags;
      Entry GetTagNames choices;
      Entry (Select "Please choose the latest tag: " choices None) sel])
  /\
  (forall (sA : S) (self_config : config) (p : string) (n : option string),
     nonempty (config_path self_config) = None ->
     replies h sA (opening self_config p n) s0 ->
     result_of (run h (call self_config) sA)
     = Err (NoAnswersError "Tag is required!")
     /\ set_keys (trace_of (run h (call self_config) sA)) = []
     /\ exits_with_success (result_of (run h (call self_config) sA)) = false).
Proof.
  intros Ha Hc Htags Hsel H.
  assert (Hrun : run h _ask_tag s0
                 = (Err (NoAnswersError "Tag is required!"), s',
                    [Entry GetLatestTagName a;
                     Entry (Confirm (latest_tag_question t) (Some false)) c;
                     Entry GetTagNames tags;
                     Entry GetTagNames choices;
                     Entry (Select "Please choose the latest tag: " choices None) sel])).
  { script H. unfold _ask_tag. follow.
    destruct tags as [|tag0 tags]; [contradiction|]. follow. reflexivity. }
  split; [exact Hrun|].
  intros sA self_config p n Hpath Hopen.
  rewrite (call_ask_tag_raises h sA s0 s' self_config p n _ _ Hpath Hopen Hrun).
  repeat split.
Qed.

(** ** C8: the keys of the new document *)

(** C8. When no configuration exists, the path [p] is chosen and the
    questions are answered with the rule [n], the tag [tag] whose public
    version is [v], and the format [fmt]: the wizard creates one empty
    document, [TomlConfig], [JsonConfig] or [YAMLConfig] by the first
    of [toml], [json], [yaml] that occurs in [p], and then calls
    [set_key] on it exactly three times, with [name], [version] and
    [tag_format], in this order, [version] being [v]. *)
Theorem call_sets_keys {S : Type} (h : handler S) (sA s0 sE sF : S)
  (self_config : config) (p : string) (n : option string)
  (tag v fmt : string) (trT trF : trace) :
  nonempty (config_path self_config) = None ->
  replies h sA (opening self_config p n) s0 ->
  run h _ask_tag s0 = (Ok tag, sE, trT) ->
  Version_public tag = Ok v ->
  run h (_ask_tag_format tag) sE = (Ok fmt, sF, trF) ->
  let doc := config_for_path self_config p in
  (exists rest,
     trace_of (run h (call self_config) sA)
     = (opening self_config p n ++ trT ++ trF
        ++ wizard_key_entries doc n v fmt ++ rest)%list
     /\ set_keys rest = [] /\ inits rest = [])
  /\ set_keys (trace_of (run h (call self_config) sA)) = wizard_keys doc n v fmt
  /\ inits (trace_of (run h (call self_config) sA)) = [doc]
  /\ (is_substring "toml" p = true -> doc = TomlConfig "" p)
  /\ (is_substring "toml" p = false -> is_substring "json" p = true ->
      doc = JsonConfig "{}" p)
  /\ (is_substring "toml" p = false -> is_substring "json" p = false ->
      is_substring "yaml" p = true -> doc = YAMLConfig "" p).
Proof.
  intros Hpath Hopen Htag Hv Hfmt doc.
  assert (Htrace : exists rest,
             trace_of (run h (call self_config) sA)
             = (opening self_config p n ++ trT ++ trF
                ++ wizard_key_entries doc n v fmt ++ rest)%list
             /\ set_keys rest = [] /\ inits rest = []).
  { script Hopen. unfold __call__. rewrite Hpath.
    unfold _ask_config_path, _ask_name. follow.
    rewrite run_bind, Htag, Hv. cbn.
    rewrite run_bind, Hfmt. cbn.
    fold doc.
    repeat match goal with
           | |- context [h unit (SetKey ?c ?k ?x) ?s] =>
               destruct (h unit (SetKey c k x) s) as [[] ?]; cbn
           end.
    match goal with
    | |- context [h _ (Checkbox ?q ?cs) ?s] =>
        destruct (h _ (Checkbox q cs) s) as [x ?]
    end.
    match goal with
    | |- context [run h ?q ?s] =>
        assert (Hfree : store_free q);
        [| destruct (store_free_run h q s Hfree) as [Hk Hi];
           destruct (run h q s) as [[r s''] rest] ]
    end.
    - repeat first [apply install_store_free | store_free_step].
    - eexists. cbn in *. split; [reflexivity|]. split; assumption. }
  split; [exact Htrace|].
  destruct Htrace as (rest & -> & Hk & Hi).
  destruct (store_free_run h _ask_tag s0 ask_tag_store_free) as [HkT HiT].
  destruct (store_free_run h (_ask_tag_format tag) sE (ask_tag_format_store_free tag))
    as [HkF HiF].
  rewrite Htag in HkT, HiT. rewrite Hfmt in HkF, HiF. cbn in HkT, HiT, HkF, HiF.
  unfold set_keys, inits in *. rewrite !flat_map_app.
  rewrite HkT, HkF, Hk, HiT, HiF, Hi. cbn.
  split; [reflexivity|]. split; [reflexivity|].
  unfold doc, config_for_path.
  split; [intros ->; reflexivity|].
  split; [intros -> ->; reflexivity|].
  intros -> -> ->; reflexivity.
Qed.

End Wizard.

(** ** C5: the install command *)

Lemma split_blank_no_blank (s : string) : no_blank s = true -> split_blank s = [s].
Proof.
  induction s as [|c s IH]; simpl; [reflexivity|].
  destruct (Ascii.eqb c " "); simpl; [discriminate|].
  intros H. now rewrite (IH H).
Qed.

(** For one hook type, a word without blanks, the command line is the one
    of the specification. *)
Lemma install_cmd_str_single (ty : string) :
  no_blank ty = true -> ty <> "" ->
  shell_words (install_cmd_str [ty]) = spec_install_argv [ty].
Proof.
  intros Hb Hne. unfold shell_words, spec_install_argv.
  cbv [install_cmd_str String.concat map String.append].
  cbn -[String.eqb]. rewrite (split_blank_no_blank ty Hb). cbn -[String.eqb].
  destruct (String.eqb_spec ty ""); [contradiction | reflexivity].
Qed.

(** X9. The step returns [True] exactly when the exit status is zero; on
    another status it reports the command, its output and its errors. *)
Lemma exec_install_status {S : Type} (h : handler S) (s0 s' : S)
  (hook_types : list string) (c : Command) :
  hook_types <> [] ->
  (return_code c = 0%Z ->
   replies h s0 [Entry (CmdRun (install_cmd_str hook_types)) c] s' ->
   run h (_exec_install_pre_commit_hook hook_types) s0
   = (Ok true, s', [Entry (CmdRun (install_cmd_str hook_types)) c]))
  /\
  (return_code c <> 0%Z ->
   replies h s0 (failure_entries (install_cmd_str hook_types) c) s' ->
   run h (_exec_install_pre_commit_hook hook_types) s0
   = (Ok false, s', failure_entries (install_cmd_str hook_types) c)).
Proof.
  intros Hne. destruct hook_types as [|ty tys]; [contradiction|].
  split; intros Hc H; script H; unfold _exec_install_pre_commit_hook.
  - follow. rewrite Hc. reflexivity.
  - follow. apply Z.eqb_neq in Hc. rewrite Hc. follow. reflexivity.
Qed.

(** C5, at the two hook types the wizard offers (and installs by default):
    the pieces are joined without a blank, so the command line run is
    [pre-commit install --hook-type commit-msg--hook-type pre-push]; its
    words are not [--hook-type <type>] once per type. *)
Theorem install_cmd_str_two_hook_types :
  install_cmd_str ["commit-msg"; "pre-push"]
  = "pre-commit install --hook-type commit-msg--hook-type pre-push"
  /\ shell_words (install_cmd_str ["commit-msg"; "pre-push"])
     = ["pre-commit"; "install"; "--hook-type"; "commit-msg--hook-type"; "pre-push"]
  /\ spec_install_argv ["commit-msg"; "pre-push"]
     = ["pre-commit"; "install"; "--hook-type"; "commit-msg";
        "--hook-type"; "pre-push"]
  /\ shell_words (install_cmd_str ["commit-msg"; "pre-push"])
     <> spec_install_argv ["commit-msg"; "pre-push"]
  /\ (forall (S : Type) (h : handler S) (s : S), exists c rest,
        trace_of (run h (_exec_install_pre_commit_hook ["commit-msg"; "pre-push"]) s)
        = Entry (CmdRun "pre-commit install --hook-type commit-msg--hook-type pre-push") c
            :: rest).
Proof.
  split; [reflexivity|]. split; [reflexivity|]. split; [reflexivity|].
  split; [vm_compute; discriminate|].
  intros S h s. unfold _exec_install_pre_commit_hook.
  change (install_cmd_str ["commit-msg"; "pre-push"])
    with "pre-commit install --hook-type commit-msg--hook-type pre-push".
  cbn.
  destruct (h _ (CmdRun "pre-commit install --hook-type commit-msg--hook-type pre-push") s)
    as [c s1].
  exists c.
  match goal with
  | |- context [run h ?q s1] => destruct (run h q s1) as [[r s2] tr]
  end.
  now exists tr.
Qed.

(** ** C10: the file is written before the executable is looked for *)

#[local] Arguments merge_config_data : simpl never.
#[local] Arguments cz_hook_config : simpl never.
#[local] Arguments effective_hook_types : simpl never.
#[local] Arguments install_cmd_str : simpl never.

(** C10. Whenever the merge yields a document, [_install_pre_commit_hook]
    writes it to [.pre-commit-config.yaml] before it looks for
    [pre-commit]: when the executable is missing, and when the install
    command exits with a non-zero status, the run holds the write of the
    merged document, then the failed check or command, and returns
    [False]. *)
Theorem install_writes_before_check {S : Type} (h : handler S) (s0 s' : S)
  (version : string) (hook_types : option (list string))
  (existing : option yaml) (config_data : yaml) (found : bool) :
  merge_config_data (cz_hook_config version) existing = Ok (config_data, found) ->
  (replies h s0 (merge_entries existing config_data found ++ missing_entries)%list s' ->
   run h (_install_pre_commit_hook version hook_types) s0
   = (Ok false, s', (merge_entries existing config_data found ++ missing_entries)%list))
  /\
  (forall (path : string) (c : Command),
     effective_hook_types hook_types <> [] ->
     return_code c <> 0%Z ->
     let failed :=
       (merge_entries existing config_data found
        ++ Entry (Which "pre-commit") (Some path)
        :: failure_entries (install_cmd_str (effective_hook_types hook_types)) c)%list in
     replies h s0 failed s' ->
     run h (_install_pre_commit_hook version hook_types) s0 = (Ok false, s', failed)).
Proof.
  intros Hmerge. split.
  - intros H. unfold _install_pre_commit_hook, _search_pre_commit.
    destruct existing as [yaml_data|], found; script H;
      follow; rewrite Hmerge; follow; reflexivity.
  - intros path c Hne Hc failed H. subst failed.
    apply Z.eqb_neq in Hc.
    unfold _install_pre_commit_hook, _search_pre_commit, _exec_install_pre_commit_hook.
    destruct (effective_hook_types hook_types) as [|ty tys]; [contradiction|].
    destruct existing as [yaml_data|], found; script H;
      follow; rewrite Hmerge; follow; rewrite Hc; follow; reflexivity.
Qed.

(** ** The hook-manager file in the scripted world *)

(** After the step, the file holds the merged document whatever happens
    later; when the merge raises, nothing has been written. *)
Lemma install_file_after (w : world) (version : string)
  (hook_types : option (list string)) :
  match merge_config_data (cz_hook_config version) (hook_file w) with
  | Ok (config_data, _) =>
      hook_file (state_of (run world_handler
                             (_install_pre_commit_hook version hook_types) w))
      = Some config_data
  | Err e =>
      run world_handler (_install_pre_commit_hook version hook_types) w
      = (Err e, w, read_entries (hook_file w))
  end.
Proof.
  unfold _install_pre_commit_hook, _search_pre_commit, _exec_install_pre_commit_hook.
  destruct w as [latest tags cs ss ts bs [yaml_data|] which c st]; cbn;
    destruct (merge_config_data _ _) as [[config_data found]|e]; cbn;
    try reflexivity;
    destruct found; cbn;
    destruct which; cbn; try reflexivity;
    destruct (effective_hook_types hook_types); cbn; try reflexivity;
    destruct (return_code c =? 0)%Z; reflexivity.
Qed.

(** X20. Two installations in a row, of the same or of another version, leave
    the file as the first one wrote it. *)
Lemma install_twice_same_file (w : world) (version version' : string)
  (hook_types hook_types' : option (list string)) (config_data : yaml) (found : bool) :
  merge_config_data (cz_hook_config version) (hook_file w) = Ok (config_data, found) ->
  let w1 := state_of (run world_handler
                        (_install_pre_commit_hook version hook_types) w) in
  let w2 := state_of (run world_handler
                        (_install_pre_commit_hook version' hook_types') w1) in
  hook_file w1 = Some config_data /\ hook_file w2 = Some config_data.
Proof.
  intros Hmerge w1 w2.
  assert (H1 : hook_file w1 = Some config_data).
  { pose proof (install_file_after w version hook_types) as H.
    now rewrite Hmerge in H. }
  split; [exact H1|].
  pose proof (install_file_after w1 version' hook_types') as H.
  rewrite H1 in H.
  rewrite (merge_stable (cz_hook_config version) (cz_hook_config version')
             (hook_file w) config_data found
             (cz_hook_config_matches version) Hmerge) in H.
  exact H.
Qed.

(** * The theorems at concrete inputs *)

Ltac replies_by_run :=
  cbn; repeat (eexists; split; [reflexivity|]); reflexivity.

Lemma merge_idempotent_witness :
  let once :=
    YMap [ (SStr "default_stages", YSeq [ YStr "commit" ]);
           (SStr "repos", YSeq [ foreign_hook; cz_hook_config "3.0.0" ]);
           (SStr "fail_fast", YScalar (SBool true)) ] in
  hook_matches (cz_hook_config "3.0.0") = Ok true
  /\ merge_config_data (cz_hook_config "3.0.0") (Some (YMap foreign_document))
     = Ok (once, false)
  /\ merge_config_data (cz_hook_config "3.0.0") (Some once) = Ok (once, true)
  /\ merge_config_data (cz_hook_config "3.1.0") (Some once) = Ok (once, true).
Proof.
  intros once. split; [reflexivity|]. split; [reflexivity|].
  apply (merge_idempotent (cz_hook_config "3.0.0") (cz_hook_config "3.1.0")
           (Some (YMap foreign_document)) once false); reflexivity.
Defined.

Lemma merge_objects_preserves_witness :
  (let h := fst (load_tree (YMap [ (SStr "fail_fast", YScalar (SBool true)) ])
                   (fst (load_tree (cz_hook_config "3.0.0") []))) in
   nth_error h 5 = Some (PDict [ (SStr "fail_fast", PScalar (SBool true)) ])
   /\ exists h' root',
        merge_objects (PRef 4) h (Some (PRef 5)) = Ok (h', root', false) /\
        Obj.deref h' root'
        = Some (PDict [ (SStr "fail_fast", PScalar (SBool true));
                        (SStr "repos", PRef 7) ]) /\
        nth_error h' 7 = Some (PList [PRef 4]) /\
        ([ (SStr "fail_fast", PScalar (SBool true)) ] <> [] -> root' = PRef 5) /\
        (forall a o, nth_error h a = Some o ->
                     a <> 5 \/ [ (SStr "fail_fast", PScalar (SBool true)) ] = [] ->
                     nth_error h' a = Some o))
  /\
  (let m := [ (SStr "default_stages", PRef 5); (SStr "repos", PRef 9);
              (SStr "fail_fast", PScalar (SBool true)) ] in
   nth_error loaded_heap 10 = Some (PDict m)
   /\ nth_error loaded_heap 9 = Some (PList [PRef 8])
   /\ hook_matches_obj loaded_heap (PRef 8) = Ok false
   /\ exists h',
        merge_objects (PRef 4) loaded_heap (Some (PRef 10)) = Ok (h', PRef 10, false) /\
        nth_error h' 9 = Some (PList [PRef 8; PRef 4]) /\
        nth_error h' 10 = Some (PDict m) /\
        (forall a o, nth_error loaded_heap a = Some o -> a <> 9 ->
                     nth_error h' a = Some o)).
Proof.
  split.
  - intros h. split; [reflexivity|].
    exact (proj1 (merge_objects_preserves (PRef 4) h 5
                    [ (SStr "fail_fast", PScalar (SBool true)) ] eq_refl) eq_refl).
  - intros m. split; [reflexivity|]. split; [reflexivity|]. split; [reflexivity|].
    apply (proj2 (merge_objects_preserves (PRef 4) loaded_heap 10 m eq_refl)
             9 [PRef 8]).
    + reflexivity.
    + reflexivity.
    + repeat constructor.
Defined.

Lemma merge_malformed_raises_witness :
  exists e,
    merge_config_data (cz_hook_config "3.0.0")
      (Some (YMap [ (SStr "repos",
                     YSeq [ foreign_hook; YMap [ (SStr "rev", YStr "1.0") ];
                            cz_hook_config "2.0.0" ]) ]))
    = Err e.
Proof.
  apply (merge_malformed_raises (cz_hook_config "3.0.0")
           [ (SStr "repos",
              YSeq [ foreign_hook; YMap [ (SStr "rev", YStr "1.0") ];
                     cz_hook_config "2.0.0" ]) ]
           [foreign_hook] (YMap [ (SStr "rev", YStr "1.0") ]) [cz_hook_config "2.0.0"]).
  - reflexivity.
  - reflexivity.
  - constructor; [discriminate | constructor].
Defined.

Lemma ask_tag_no_tags_witness :
  run world_handler _ask_tag fresh_world
  = (Ok "0.0.1", fresh_world,
     [Entry GetLatestTagName None; Entry (Out OutError no_tag_warning) tt])
  /\
  run world_handler _ask_tag
    (with_answers [Some false] [] [] [] (with_tags (Some "v1.0.0") [] fresh_world))
  = (Ok "0.0.1", with_tags (Some "v1.0.0") [] fresh_world,
     [Entry GetLatestTagName (Some "v1.0.0");
      Entry (Confirm (latest_tag_question "v1.0.0") (Some false)) (Some false);
      Entry GetTagNames [];
      Entry (Out OutError no_tag_warning) tt]).
Proof.
  split.
  - apply (proj1 (ask_tag_no_tags world_handler fresh_world fresh_world) None).
    + reflexivity.
    + replies_by_run.
  - refine (proj1 (proj2 (ask_tag_no_tags world_handler
                    (with_answers [Some false] [] [] []
                       (with_tags (Some "v1.0.0") [] fresh_world))
                    (with_tags (Some "v1.0.0") [] fresh_world))
             (Some "v1.0.0") "v1.0.0" (Some false) _ _ _)).
    + reflexivity.
    + reflexivity.
    + replies_by_run.
Defined.

Lemma ask_tag_required_witness :
  let w := with_answers [Some false] [None] [] []
             (with_tags (Some "v1.0.0") ["v0.9.0"; "v1.0.0"] fresh_world) in
  result_of (run world_handler _ask_tag w) = Err (NoAnswersError "Tag is required!")
  /\ result_of (run world_handler
                  (__call__ offered_config_files offered_rules "3.0.0" release_public
                     (BaseConfig None))
                  (with_answers [Some false]
                     [Some ".cz.toml"; Some "cz_conventional_commits"; None] [] []
                     (with_tags (Some "v1.0.0") ["v0.9.0"; "v1.0.0"] fresh_world)))
     = Err (NoAnswersError "Tag is required!").
Proof.
  intros w.
  pose proof (ask_tag_required offered_config_files offered_rules "3.0.0" release_public
                world_handler w
                (with_tags (Some "v1.0.0") ["v0.9.0"; "v1.0.0"] fresh_world)
                (Some "v1.0.0") "v1.0.0" (Some false)
                ["v0.9.0"; "v1.0.0"] ["v0.9.0"; "v1.0.0"] None
                eq_refl eq_refl) as H.
  destruct H as [Hrun Hcall].
  - discriminate.
  - reflexivity.
  - replies_by_run.
  - split.
    + now rewrite Hrun.
    + apply (Hcall (with_answers [Some false]
                      [Some ".cz.toml"; Some "cz_conventional_commits"; None] [] []
                      (with_tags (Some "v1.0.0") ["v0.9.0"; "v1.0.0"] fresh_world))
               (BaseConfig None) ".cz.toml" (Some "cz_conventional_commits")).
      * reflexivity.
      * replies_by_run.
Defined.

Lemma ask_tag_format_free_form_witness :
  (exists r,
     run world_handler (_ask_tag_format "1.2.0") fresh_world
     = (r, fresh_world, [Entry (Text tag_format_prompt) None])
     /\ r = Ok "$version")
  /\
  (exists r,
     run world_handler (_ask_tag_format "v1.2.0")
       (with_answers [Some false] [] [Some "release-1"] [] fresh_world)
     = (r, fresh_world,
        [Entry (Confirm tag_format_question None) (Some false);
         Entry (Text tag_format_prompt) (Some "release-1")])
     /\ r = Ok "release-1").
Proof.
  split.
  - destruct (ask_tag_format_free_form world_handler fresh_world fresh_world
                "1.2.0" [] None) as (r & Hrun & Hempty & _).
    + left. split; reflexivity.
    + replies_by_run.
    + exists r. split; [exact Hrun | apply Hempty; now left].
  - destruct (ask_tag_format_free_form world_handler
                (with_answers [Some false] [] [Some "release-1"] [] fresh_world)
                fresh_world "v1.2.0"
                [Entry (Confirm tag_format_question None) (Some false)]
                (Some "release-1")) as (r & Hrun & _ & Hentered).
    + right. split; [reflexivity|]. exists (Some false). split; reflexivity.
    + replies_by_run.
    + exists r. split; [exact Hrun | apply Hentered; [reflexivity | discriminate]].
Defined.

Lemma ask_tag_format_v_witness :
  run world_handler (_ask_tag_format "v2.3.0")
    (with_answers [Some true] [] [] [] fresh_world)
  = (Ok "v$version", fresh_world,
     [Entry (Confirm tag_format_question None) (Some true)]).
Proof.
  refine (proj1 (ask_tag_format_v world_handler
                   (with_answers [Some true] [] [] [] fresh_world) fresh_world
                   "v2.3.0" _ _)).
  - reflexivity.
  - replies_by_run.
Defined.

Lemma call_sets_keys_witness :
  let w := with_answers [Some true; Some true]
             [Some ".cz.toml"; Some "cz_conventional_commits"] [] [Some []]
             (with_tags (Some "v2.3.0") ["v2.3.0"] fresh_world) in
  let init := __call__ offered_config_files offered_rules "3.0.0" release_public
                (BaseConfig None) in
  release_public "v2.3.0" = Ok "2.3.0"
  /\ set_keys (trace_of (run world_handler init w))
     = [ (TomlConfig "" ".cz.toml", "name", Some "cz_conventional_commits");
         (TomlConfig "" ".cz.toml", "version", Some "2.3.0");
         (TomlConfig "" ".cz.toml", "tag_format", Some "v$version") ]
  /\ inits (trace_of (run world_handler init w)) = [TomlConfig "" ".cz.toml"].
Proof.
  intros w init. split; [reflexivity|].
  edestruct (call_sets_keys offered_config_files offered_rules "3.0.0" release_public
               world_handler w) with
    (self_config := BaseConfig None) (p := ".cz.toml")
    (n := Some "cz_conventional_commits")
    (tag := "v2.3.0") (v := "2.3.0") (fmt := "v$version")
    as (_ & Hkeys & Hinits & _).
  - reflexivity.
  - replies_by_run.
  - reflexivity.
  - reflexivity.
  - reflexivity.
  - split; [exact Hkeys | exact Hinits].
Defined.

Lemma install_writes_before_check_witness :
  let merged :=
    YMap [ (SStr "default_stages", YSeq [ YStr "commit" ]);
           (SStr "repos", YSeq [ foreign_hook; cz_hook_config "3.0.0" ]);
           (SStr "fail_fast", YScalar (SBool true)) ] in
  let missing := with_hook_manager (Some (YMap foreign_document)) None
                   (cmd_result fresh_world) fresh_world in
  let failing := with_hook_manager (Some (YMap foreign_document))
                   (Some "/usr/bin/pre-commit") failed_command fresh_world in
  (result_of (run world_handler (_install_pre_commit_hook "3.0.0" None) missing)
   = Ok false
   /\ hook_file (state_of (run world_handler (_install_pre_commit_hook "3.0.0" None)
                             missing))
      = Some merged)
  /\
  (result_of (run world_handler (_install_pre_commit_hook "3.0.0" None) failing)
   = Ok false
   /\ hook_file (state_of (run world_handler (_install_pre_commit_hook "3.0.0" None)
                             failing))
      = Some merged).
Proof.
  intros merged missing failing.
  pose proof (install_writes_before_check world_handler missing
                (with_hook_manager (Some merged) None (cmd_result fresh_world) fresh_world)
                "3.0.0" None (Some (YMap foreign_document)) merged false eq_refl)
    as [Hmissing _].
  pose proof (install_writes_before_check world_handler failing
                (with_hook_manager (Some merged) (Some "/usr/bin/pre-commit")
                   failed_command fresh_world)
                "3.0.0" None (Some (YMap foreign_document)) merged false eq_refl)
    as [_ Hfailing].
  split.
  - rewrite Hmissing; [split; reflexivity | replies_by_run].
  - rewrite (Hfailing "/usr/bin/pre-commit" failed_command);
      [split; reflexivity | discriminate | discriminate | replies_by_run].
Defined.

(** ** The scenarios of the specification, run *)

(** No configuration, [.cz.toml] chosen, no tag, no answer at the format
    prompt, no hook type selected. *)
Example scenario_fresh_project :
  let w := with_answers [] [Some ".cz.toml"; Some "cz_conventional_commits"] []
             [Some []] fresh_world in
  let r := run world_handler
             (__call__ offered_config_files offered_rules "3.0.0" release_public
                (BaseConfig None)) w in
  result_of r = Ok tt
  /\ store (state_of r)
     = [ ("name", Some "cz_conventional_commits"); ("version", Some "0.0.1");
         ("tag_format", Some "$version") ]
  /\ inits (trace_of r) = [TomlConfig "" ".cz.toml"].
Proof. vm_compute. repeat split. Qed.

(** A configuration that exists stops the wizard at once. *)
Example scenario_existing_configuration :
  run world_handler
    (__call__ offered_config_files offered_rules "3.0.0" release_public
       (BaseConfig (Some "pyproject.toml"))) fresh_world
  = (Ok tt, fresh_world,
     [Entry (Out OutLine "Config file pyproject.toml already exists") tt]).
Proof. reflexivity. Qed.

(** No hook-manager file, one hook type selected: the file written holds
    one entry list with the entry of the tool, and the hooks are
    installed. *)
Example scenario_hook_file_absent :
  let r := run world_handler (_install_pre_commit_hook "3.0.0" (Some ["commit-msg"]))
             fresh_world in
  result_of r = Ok true
  /\ hook_file (state_of r)
     = Some (YMap [ (SStr "repos", YSeq [ cz_hook_config "3.0.0" ]) ])
  /\ In (Entry (CmdRun "pre-commit install --hook-type commit-msg")
           (cmd_result fresh_world)) (trace_of r).
Proof. vm_compute. repeat split. right. right. right. left. reflexivity. Qed.

(** The file already holds an entry of the tool, of an older revision:
    it is written back as it was, the notice is shown, the install is
    still run. *)
Example scenario_hook_file_has_entry :
  let doc := YMap [ (SStr "repos", YSeq [ foreign_hook; cz_hook_config "2.0.0" ]) ] in
  let r := run world_handler (_install_pre_commit_hook "3.0.0" (Some ["commit-msg"]))
             (with_hook_manager (Some doc) (Some "/usr/bin/pre-commit")
                (cmd_result fresh_world) fresh_world) in
  result_of r = Ok true
  /\ hook_file (state_of r) = Some doc
  /\ trace_of r
     = [ Entry (IsFile pre_commit_config_filename) true;
         Entry (SafeLoad pre_commit_config_filename) doc;
         Entry (Out OutWrite "commitizen already in pre-commit config") tt;
         Entry (SafeDump pre_commit_config_filename doc) tt;
         Entry (Which "pre-commit") (Some "/usr/bin/pre-commit");
         Entry (CmdRun "pre-commit install --hook-type commit-msg")
           (cmd_result fresh_world);
         Entry (Out OutWrite
                  ("commitizen pre-commit hook is now installed in your '.git'"
                   ++ newline)) tt ].
Proof. vm_compute. repeat split. Qed.

(** With both hook types selected, the wizard's default, the command run
    is the one without the blank. *)
Example scenario_two_hook_types :
  In (Entry (CmdRun "pre-commit install --hook-type commit-msg--hook-type pre-push")
        (cmd_result fresh_world))
     (trace_of (run world_handler (_install_pre_commit_hook "3.0.0" None) fresh_world)).
Proof. vm_compute. right. right. right. left. reflexivity. Qed.

(** * Further properties of the command *)

(** ** Events a function never makes *)

Lemma avoids_bind {A B : Type} (t : event_test) (p : prog A) (f : A -> prog B) :
  avoids t p -> (forall a, avoids t (f a)) -> avoids t (prog_bind p f).
Proof.
  intros Hp Hf. induction Hp as [a|e|X ev k Ht _ IH]; simpl.
  - apply Hf.
  - constructor.
  - now constructor.
Qed.

Lemma avoids_run {S A : Type} (t : event_test) (h : handler S) (p : prog A) (s : S) :
  avoids t p -> occurs t (trace_of (run h p s)) = false.
Proof.
  intros Hp. revert s. induction Hp as [a|e|X ev k Ht _ IH]; intros s; simpl; auto.
  destruct (h X ev s) as [x s1]. specialize (IH x s1).
  destruct (run h (k x) s1) as [[r s2] tr]. unfold occurs in *. simpl in *.
  now rewrite Ht, IH.
Qed.

Ltac avoids_step :=
  match goal with
  | |- avoids _ (Ret _) => constructor
  | |- avoids _ (Throw _) => constructor
  | |- avoids _ (Vis _ _) => apply avoids_vis; [reflexivity | intros ?]
  | |- avoids _ (prog_bind _ _) => apply avoids_bind; [| intros ?]
  | |- avoids _ (trigger _) => unfold trigger
  | |- avoids _ (lift ?r) => destruct r; cbn
  | |- avoids _ (match ?x with _ => _ end) => destruct x; cbn
  | |- avoids _ (if ?x then _ else _) => destruct x; cbn
  | |- avoids _ (let (_, _) := ?x in _) => destruct x; cbn
  end.

Lemma ask_tag_avoids (t : event_test) :
  (forall X (ev : event X), t X ev = true -> touches_hook_manager X ev = true
                                           \/ touches_store X ev = true) ->
  avoids t _ask_tag.
Proof.
  intros Ht.
  assert (Hno : forall X (ev : event X),
             touches_hook_manager X ev = false -> touches_store X ev = false ->
             t X ev = false).
  { intros X ev H1 H2. destruct (t X ev) eqn:E; [|reflexivity].
    destruct (Ht X ev E); congruence. }
  unfold _ask_tag. cbn.
  repeat first [ apply avoids_vis; [now apply Hno | intros ?] | avoids_step ].
Qed.

Lemma ask_tag_format_avoids (t : event_test) (tag : string) :
  (forall X (ev : event X), t X ev = true -> touches_hook_manager X ev = true
                                           \/ touches_store X ev = true
                                           \/ is_git_query X ev = true) ->
  avoids t (_ask_tag_format tag).
Proof.
  intros Ht.
  assert (Hno : forall X (ev : event X),
             touches_hook_manager X ev = false -> touches_store X ev = false ->
             is_git_query X ev = false -> t X ev = false).
  { intros X ev H1 H2 H3. destruct (t X ev) eqn:E; [|reflexivity].
    destruct (Ht X ev E) as [H|[H|H]]; congruence. }
  unfold _ask_tag_format. cbn.
  repeat first [ apply avoids_vis; [now apply Hno | intros ?] | avoids_step ].
Qed.

(** X10. The two questions about the tag only ask: in no run does [_ask_tag]
    or [_ask_tag_format] touch the hook-manager file, look for or run an
    executable, or write to the configuration; [_ask_tag_format] does not
    query git either. *)
Theorem tag_questions_only_ask {S : Type} (h : handler S) (s : S) (tag : string) :
  occurs touches_hook_manager (trace_of (run h _ask_tag s)) = false
  /\ occurs touches_store (trace_of (run h _ask_tag s)) = false
  /\ occurs touches_hook_manager (trace_of (run h (_ask_tag_format tag) s)) = false
  /\ occurs touches_store (trace_of (run h (_ask_tag_format tag) s)) = false
  /\ occurs is_git_query (trace_of (run h (_ask_tag_format tag) s)) = false.
Proof.
  repeat split; apply avoids_run;
    first [ apply ask_tag_avoids | apply ask_tag_format_avoids ]; intros X ev; auto.
Qed.

Lemma exec_install_avoids (t : event_test) (hook_types : list string) :
  (forall X (ev : event X), t X ev = true -> touches_hook_manager X ev = false) ->
  (forall c msg, t unit (Out c msg) = false) ->
  avoids t (_exec_install_pre_commit_hook hook_types).
Proof.
  intros Ht Hout.
  assert (Hno : forall X (ev : event X), touches_hook_manager X ev = true -> t X ev = false).
  { intros X ev H1. destruct (t X ev) eqn:E; [|reflexivity].
    specialize (Ht X ev E). congruence. }
  unfold _exec_install_pre_commit_hook. cbn.
  repeat first [ apply avoids_vis; [first [apply Hout | now apply Hno] | intros ?]
               | avoids_step ].
Qed.

Lemma install_avoids (t : event_test) (version : string)
  (hook_types : option (list string)) :
  (forall X (ev : event X), t X ev = true -> touches_hook_manager X ev = false) ->
  (forall c msg, t unit (Out c msg) = false) ->
  avoids t (_install_pre_commit_hook version hook_types).
Proof.
  intros Ht Hout.
  assert (Hno : forall X (ev : event X), touches_hook_manager X ev = true -> t X ev = false).
  { intros X ev H1. destruct (t X ev) eqn:E; [|reflexivity].
    specialize (Ht X ev E). congruence. }
  unfold _install_pre_commit_hook, _search_pre_commit. cbn.
  repeat first [ apply (exec_install_avoids t _ Ht Hout)
               | apply avoids_vis; [first [apply Hout | now apply Hno] | intros ?]
               | avoids_step ].
Qed.

(** X11. The hook installation never asks the user anything and never
    creates or writes the configuration, in any run: what it does is
    decided by its argument, the hook-manager file, the search path and
    the sub-process. *)
Theorem install_never_prompts {S : Type} (h : handler S) (s : S) (version : string)
  (hook_types : option (list string)) :
  occurs is_prompt (trace_of (run h (_install_pre_commit_hook version hook_types) s))
  = false
  /\ occurs touches_store
       (trace_of (run h (_install_pre_commit_hook version hook_types) s)) = false.
Proof.
  repeat split; apply avoids_run; apply install_avoids;
    try (intros X ev; destruct ev; simpl; congruence); reflexivity.
Qed.

(** ** What the questions can return *)

Lemma nonempty_some (a : option string) (t : string) :
  nonempty a = Some t -> a = Some t /\ t <> "".
Proof.
  destruct a as [s|]; simpl; [|discriminate].
  destruct (String.eqb_spec s ""); [discriminate|].
  intros [= ->]. now split.
Qed.

(** Take the next answer of the handler, whatever it is. *)
Ltac ask h :=
  match goal with
  | |- context [h ?X ?ev ?s] => destruct (h X ev s) as [? ?]; cbn
  end.

(** X12. In every run, [_ask_tag] either raises [NoAnswersError] or returns a
    tag that is not empty: the default ["0.0.1"], the latest tag as git
    gave it, or the tag selected from the list. *)
Theorem ask_tag_outcomes {S : Type} (h : handler S) (s : S) :
  match result_of (run h _ask_tag s) with
  | Ok t =>
      t <> "" /\
      (t = "0.0.1"
       \/ In (Entry GetLatestTagName (Some t)) (trace_of (run h _ask_tag s))
       \/ exists choices,
            In (Entry (Select "Please choose the latest tag: " choices None) (Some t))
               (trace_of (run h _ask_tag s)))
  | Err e => e = NoAnswersError "Tag is required!"
  end.
Proof.
  unfold _ask_tag. cbn. ask h.
  destruct (nonempty o) as [t|] eqn:Ha; cbn.
  - apply nonempty_some in Ha. destruct Ha as [-> Ht].
    ask h. destruct (accepted o) eqn:Hc; cbn.
    + split; [exact Ht|]. right. left. now left.
    + ask h. destruct l as [|tag0 tags]; cbn.
      * ask h. split; [discriminate | now left].
      * ask h. ask h. destruct (nonempty o0) as [t'|] eqn:Hs; cbn; [|reflexivity].
        apply nonempty_some in Hs. destruct Hs as [-> Ht'].
        split; [exact Ht'|]. right. right. exists l. cbn. auto 6.
  - ask h. split; [discriminate | now left].
Qed.

(** X13. [_ask_tag_format] never raises and never returns an empty template:
    in every run the result is ["v$version"], ["$version"] or what was
    entered; and for a tag that does not start with [v] no confirmation
    is asked. *)
Theorem ask_tag_format_outcomes {S : Type} (h : handler S) (s : S) (tag : string) :
  (exists f,
     result_of (run h (_ask_tag_format tag) s) = Ok f /\ f <> "" /\
     (f = "v$version" \/ f = "$version"
      \/ In (Entry (Text tag_format_prompt) (Some f))
            (trace_of (run h (_ask_tag_format tag) s))))
  /\ (String.prefix "v" tag = false ->
      exists a, trace_of (run h (_ask_tag_format tag) s)
                = [Entry (Text tag_format_prompt) a]).
Proof.
  unfold _ask_tag_format. destruct (String.prefix "v" tag) eqn:Hv; cbn.
  - split; [|discriminate]. ask h. destruct (accepted o) eqn:Hc; cbn.
    + exists "v$version". repeat split; [discriminate | now left].
    + ask h. destruct (nonempty o0) as [f|] eqn:Hf; cbn.
      * apply nonempty_some in Hf. destruct Hf as [-> Hf].
        exists f. repeat split; [exact Hf|]. right. right. cbn. auto.
      * exists "$version". repeat split; [discriminate | auto].
  - ask h. split.
    + destruct (nonempty o) as [f|] eqn:Hf; cbn.
      * apply nonempty_some in Hf. destruct Hf as [-> Hf].
        exists f. repeat split; [exact Hf|]. right. right. cbn. auto.
      * exists "$version". repeat split; [discriminate | auto].
    + intros _. exists o. now destruct (nonempty o).
Qed.

(** X14. A confirmed latest tag is returned as git gave it, and the tags are
    not enumerated. *)
Theorem ask_tag_confirmed {S : Type} (h : handler S) (s0 s' : S)
  (a : option string) (t : string) :
  nonempty a = Some t ->
  replies h s0 [Entry GetLatestTagName a;
                Entry (Confirm (latest_tag_question t) (Some false)) (Some true)] s' ->
  run h _ask_tag s0
  = (Ok t, s',
     [Entry GetLatestTagName a;
      Entry (Confirm (latest_tag_question t) (Some false)) (Some true)])
  /\ a = Some t.
Proof.
  intros Ha H. split; [|exact (proj1 (nonempty_some a t Ha))].
  script H. unfold _ask_tag. follow. reflexivity.
Qed.

(** X15. When the latest tag is declined, the tags are enumerated twice: the
    first list is only tested for emptiness, the second is the one
    offered; the answer, when not empty, is returned as it is, whether or
    not it is one of the tags. *)
Theorem ask_tag_selected {S : Type} (h : handler S) (s0 s' : S)
  (a : option string) (t : string) (c : option bool)
  (tags choices : list string) (sel : option string) (chosen : string) :
  nonempty a = Some t ->
  accepted c = false ->
  tags <> [] ->
  nonempty sel = Some chosen ->
  replies h s0 [Entry GetLatestTagName a;
                Entry (Confirm (latest_tag_question t) (Some false)) c;
                Entry GetTagNames tags;
                Entry GetTagNames choices;
                Entry (Select "Please choose the latest tag: " choices None) sel] s' ->
  run h _ask_tag s0
  = (Ok chosen, s',
     [Entry GetLatestTagName a;
      Entry (Confirm (latest_tag_question t) (Some false)) c;
      Entry GetTagNames tags;
      Entry GetTagNames choices;
      Entry (Select "Please choose the latest tag: " choices None) sel]).
Proof.
  intros Ha Hc Htags Hsel H. script H. unfold _ask_tag. follow.
  destruct tags as [|tag0 tags]; [contradiction|]. follow. reflexivity.
Qed.

(** ** The hook installation, path by path *)

(** X17. When the merge raises, the exception leaves [_install_pre_commit_hook]
    after the file has been read: nothing is written, and [pre-commit] is
    neither looked for nor run. *)
Theorem install_merge_error_writes_nothing {S : Type} (h : handler S) (s0 s' : S)
  (version : string) (hook_types : option (list string))
  (existing : option yaml) (e : exn) :
  merge_config_data (cz_hook_config version) existing = Err e ->
  replies h s0 (read_entries existing) s' ->
  run h (_install_pre_commit_hook version hook_types) s0
  = (Err e, s', read_entries existing).
Proof.
  intros Hmerge H. unfold _install_pre_commit_hook.
  destruct existing as [yaml_data|]; script H; follow; rewrite Hmerge; reflexivity.
Qed.

(** X18. When the merge yields a document, [pre-commit] is found and the
    install command exits with status zero, the step returns [True]; the
    command is run also when the entry was already in the file. *)
Theorem install_succeeds {S : Type} (h : handler S) (s0 s' : S)
  (version : string) (hook_types : option (list string))
  (existing : option yaml) (config_data : yaml) (found : bool)
  (path : string) (c : Command) :
  merge_config_data (cz_hook_config version) existing = Ok (config_data, found) ->
  effective_hook_types hook_types <> [] ->
  return_code c = 0%Z ->
  replies h s0
    (merge_entries existing config_data found
     ++ success_entries path (install_cmd_str (effective_hook_types hook_types)) c)%list
    s' ->
  run h (_install_pre_commit_hook version hook_types) s0
  = (Ok true, s',
     (merge_entries existing config_data found
      ++ success_entries path (install_cmd_str (effective_hook_types hook_types)) c)%list).
Proof.
  intros Hmerge Hne Hc H.
  unfold _install_pre_commit_hook, _search_pre_commit, _exec_install_pre_commit_hook.
  destruct (effective_hook_types hook_types) as [|ty tys]; [contradiction|].
  destruct existing as [yaml_data|], found; script H;
    follow; rewrite Hmerge; follow; rewrite Hc; follow; reflexivity.
Qed.

(** X19. Called with an empty list of hook types, the step raises [ValueError],
    but only after it has written the merged document and found
    [pre-commit]; no command is run. *)
Theorem install_empty_hook_types_raises {S : Type} (h : handler S) (s0 s' : S)
  (version : string) (existing : option yaml) (config_data : yaml) (found : bool)
  (path : string) :
  merge_config_data (cz_hook_config version) existing = Ok (config_data, found) ->
  replies h s0
    (merge_entries existing config_data found
     ++ [Entry (Which "pre-commit") (Some path)])%list s' ->
  run h (_install_pre_commit_hook version (Some [])) s0
  = (Err (ValueError "At least 1 hook type should be provided."), s',
     (merge_entries existing config_data found
      ++ [Entry (Which "pre-commit") (Some path)])%list).
Proof.
  intros Hmerge H.
  unfold _install_pre_commit_hook, _search_pre_commit, _exec_install_pre_commit_hook.
  change (effective_hook_types (Some [])) with (@nil string).
  destruct existing as [yaml_data|], found; script H;
    follow; rewrite Hmerge; follow; reflexivity.
Qed.

(** ** The wizard, path by path *)

Lemma occurs_app (t : event_test) (tr1 tr2 : trace) :
  occurs t (tr1 ++ tr2)%list = (occurs t tr1 || occurs t tr2)%bool.
Proof. unfold occurs. apply existsb_app. Qed.

Section WizardPaths.

Variables config_files registry_keys : list string.
Variable __version__ : string.
Variable Version_public : string -> result string.

Abbreviation call := (__call__ config_files registry_keys __version__ Version_public).
Abbreviation opening := (wizard_opening config_files registry_keys).
Abbreviation answered h :=
  (questions_answered h config_files registry_keys Version_public).

(** Once the questions are answered, [__call__] goes on as
    [wizard_closing]. *)
Lemma call_run_closing {S : Type} (h : handler S) (sA sK : S)
  (self_config : config) (p : string) (n : option string)
  (tag v fmt : string) (asked : trace) :
  answered h self_config sA p n tag v fmt sK asked ->
  run h (call self_config) sA
  = (let '(r, s', rest) := run h (wizard_closing __version__) sK in
     (r, s', (asked ++ rest)%list)).
Proof.
  intros (Hpath & s0 & sE & sF & trT & trF & Hopen & Htag & Hv & Hfmt & Hkeys & ->).
  script Hopen. script Hkeys. unfold __call__. rewrite Hpath.
  unfold _ask_config_path, _ask_name. follow.
  rewrite run_bind, Htag, Hv. cbn.
  rewrite run_bind, Hfmt. cbn. follow.
  unfold wizard_closing. cbn. ask h.
  match goal with
  | |- context [run h ?q ?s] => destruct (run h q s) as [[r s''] rest]
  end.
  cbn. rewrite <- !app_assoc. reflexivity.
Qed.

Lemma answered_keys {S : Type} (h : handler S) (sA sK : S)
  (self_config : config) (p : string) (n : option string)
  (tag v fmt : string) (asked : trace) :
  answered h self_config sA p n tag v fmt sK asked ->
  set_keys asked = wizard_keys (config_for_path self_config p) n v fmt
  /\ inits asked = [config_for_path self_config p]
  /\ occurs touches_hook_manager asked = false.
Proof.
  intros (Hpath & s0 & sE & sF & trT & trF & Hopen & Htag & Hv & Hfmt & Hkeys & ->).
  destruct (store_free_run h _ask_tag s0 ask_tag_store_free) as [HkT HiT].
  destruct (store_free_run h (_ask_tag_format tag) sE (ask_tag_format_store_free tag))
    as [HkF HiF].
  pose proof (avoids_run touches_hook_manager h _ask_tag s0
                (ask_tag_avoids touches_hook_manager (fun X ev H => or_introl H)))
    as HhT.
  pose proof (avoids_run touches_hook_manager h (_ask_tag_format tag) sE
                (ask_tag_format_avoids touches_hook_manager tag
                   (fun X ev H => or_introl H))) as HhF.
  rewrite Htag in HkT, HiT, HhT. rewrite Hfmt in HkF, HiF, HhF.
  cbn in HkT, HiT, HkF, HiF. cbn [trace_of snd] in HhT, HhF.
  rewrite !occurs_app, HhT, HhF.
  unfold set_keys, inits in *. rewrite !flat_map_app.
  rewrite HkT, HkF, HiT, HiF. repeat split.
Qed.

(** X21. When a configuration file exists, the wizard writes one line saying
    so and returns: nothing is asked, created or set. *)
Theorem call_existing_config {S : Type} (h : handler S) (s s' : S)
  (self_config : config) (path : string) :
  nonempty (config_path self_config) = Some path ->
  replies h s [Entry (Out OutLine ("Config file " ++ path ++ " already exists")) tt] s' ->
  run h (call self_config) s
  = (Ok tt, s', [Entry (Out OutLine ("Config file " ++ path ++ " already exists")) tt])
  /\ config_path self_config = Some path.
Proof.
  intros Hpath H. split; [|exact (proj1 (nonempty_some _ _ Hpath))].
  script H. unfold __call__. rewrite Hpath. follow. reflexivity.
Qed.

(** X22. When the first prompt is cancelled, the wizard raises [TypeError] on
    its test of the path, before anything is created. *)
Theorem call_cancelled_path_raises {S : Type} (h : handler S) (s s' : S)
  (self_config : config) :
  nonempty (config_path self_config) = None ->
  replies h s
    [Entry (Select config_path_question config_files (Some "pyproject.toml")) None] s' ->
  run h (call self_config) s
  = (Err TypeError, s',
     [Entry (Select config_path_question config_files (Some "pyproject.toml")) None]).
Proof.
  intros Hpath H. script H. unfold __call__. rewrite Hpath.
  unfold _ask_config_path. follow. reflexivity.
Qed.

(** X23. When [_ask_tag] raises, or the tag it returns is not a version, the
    exception leaves [__call__]: by then the empty document has been
    created for the chosen path, and no key is ever set in it. *)
Theorem call_abort_leaves_empty_document {S : Type} (h : handler S) (sA s0 s' : S)
  (self_config : config) (p : string) (n : option string) (e : exn) (trT : trace) :
  nonempty (config_path self_config) = None ->
  replies h sA (opening self_config p n) s0 ->
  (run h _ask_tag s0 = (Err e, s', trT)
   \/ exists tag, run h _ask_tag s0 = (Ok tag, s', trT) /\ Version_public tag = Err e) ->
  run h (call self_config) sA = (Err e, s', (opening self_config p n ++ trT)%list)
  /\ inits (opening self_config p n ++ trT)%list = [config_for_path self_config p]
  /\ set_keys (opening self_config p n ++ trT)%list = [].
Proof.
  intros Hpath Hopen Htag.
  destruct (store_free_run h _ask_tag s0 ask_tag_store_free) as [HkT HiT].
  assert (Hrun : run h (call self_config) sA
                 = (Err e, s', (opening self_config p n ++ trT)%list)).
  { destruct Htag as [Htag | (tag & Htag & Hv)].
    - exact (call_ask_tag_raises config_files registry_keys __version__ Version_public
               h sA s0 s' self_config p n e trT Hpath Hopen Htag).
    - script Hopen. unfold __call__. rewrite Hpath.
      unfold _ask_config_path, _ask_name. follow.
      rewrite run_bind, Htag, Hv. cbn. rewrite app_nil_r. reflexivity. }
  split; [exact Hrun|].
  assert (Htr : trace_of (run h _ask_tag s0) = trT)
    by (destruct Htag as [Htag | (tag & Htag & _)]; now rewrite Htag).
  rewrite Htr in HkT, HiT.
  unfold set_keys, inits in *. rewrite !flat_map_app, HkT, HiT. split; reflexivity.
Qed.

(** X24. When no hook type is selected, or the prompt is cancelled, the wizard
    ends with its three messages and returns: the hook-manager file is
    not read or written and no executable is looked for. *)
Theorem call_without_hooks {S : Type} (h : handler S) (sA sK s' : S)
  (self_config : config) (p : string) (n : option string)
  (tag v fmt : string) (asked : trace) (hook_types : option (list string)) :
  answered h self_config sA p n tag v fmt sK asked ->
  hook_types = None \/ hook_types = Some [] ->
  replies h sK (hook_types_entry hook_types :: closing_messages) s' ->
  run h (call self_config) sA
  = (Ok tt, s', (asked ++ hook_types_entry hook_types :: closing_messages)%list)
  /\ occurs touches_hook_manager
       (asked ++ hook_types_entry hook_types :: closing_messages)%list = false.
Proof.
  intros Hasked Hnone H. split.
  - rewrite (call_run_closing h sA sK self_config p n tag v fmt asked Hasked).
    unfold wizard_closing.
    destruct Hnone as [-> | ->]; script H; follow; reflexivity.
  - destruct (answered_keys h sA sK self_config p n tag v fmt asked Hasked)
      as (_ & _ & Hh).
    rewrite occurs_app, Hh. reflexivity.
Qed.

(** X25. When the hook installation returns [False], the wizard raises
    [InitFailedError]; the three keys have been set before, and the
    closing messages are not written. *)
Theorem call_install_failure {S : Type} (h : handler S) (sA sK sH s' : S)
  (self_config : config) (p : string) (n : option string)
  (tag v fmt : string) (asked trI : trace) (ty : string) (tys : list string) :
  answered h self_config sA p n tag v fmt sK asked ->
  replies h sK [hook_types_entry (Some (ty :: tys))] sH ->
  run h (_install_pre_commit_hook __version__ (Some (ty :: tys))) sH
  = (Ok false, s', trI) ->
  run h (call self_config) sA
  = (Err (InitFailedError
            "Installation failed. See error outputs for more information."),
     s', (asked ++ hook_types_entry (Some (ty :: tys)) :: trI)%list)
  /\ set_keys (asked ++ hook_types_entry (Some (ty :: tys)) :: trI)%list
     = wizard_keys (config_for_path self_config p) n v fmt.
Proof.
  intros Hasked H Hinstall. split.
  - rewrite (call_run_closing h sA sK self_config p n tag v fmt asked Hasked).
    unfold wizard_closing. script H. follow.
    rewrite !run_bind, Hinstall. cbn. rewrite ?app_nil_r. reflexivity.
  - destruct (answered_keys h sA sK self_config p n tag v fmt asked Hasked)
      as (Hk & _ & _).
    destruct (store_free_run h (_install_pre_commit_hook __version__ (Some (ty :: tys)))
                sH (install_store_free __version__ (Some (ty :: tys)))) as [HkI _].
    rewrite Hinstall in HkI. cbn in HkI.
    unfold set_keys in *. rewrite flat_map_app, Hk. cbn. rewrite HkI. reflexivity.
Qed.

(** X26. When the hook installation returns [True], the wizard writes its
    three messages and returns. *)
Theorem call_with_hooks_succeeds {S : Type} (h : handler S) (sA sK sH sI s' : S)
  (self_config : config) (p : string) (n : option string)
  (tag v fmt : string) (asked trI : trace) (ty : string) (tys : list string) :
  answered h self_config sA p n tag v fmt sK asked ->
  replies h sK [hook_types_entry (Some (ty :: tys))] sH ->
  run h (_install_pre_commit_hook __version__ (Some (ty :: tys))) sH
  = (Ok true, sI, trI) ->
  replies h sI closing_messages s' ->
  run h (call self_config) sA
  = (Ok tt, s',
     (asked ++ hook_types_entry (Some (ty :: tys)) :: trI ++ closing_messages)%list).
Proof.
  intros Hasked H Hinstall Hclose.
  rewrite (call_run_closing h sA sK self_config p n tag v fmt asked Hasked).
  unfold wizard_closing. script H. script Hclose. follow.
  rewrite !run_bind, Hinstall. follow. rewrite ?app_nil_r. reflexivity.
Qed.

End WizardPaths.

(** * The further properties at concrete inputs *)

Lemma merge_result_has_entry_witness :
  exists m' repos hooks,
    YMap [ (SStr "default_stages", YSeq [ YStr "commit" ]);
           (SStr "repos", YSeq [ foreign_hook; cz_hook_config "3.0.0" ]);
           (SStr "fail_fast", YScalar (SBool true)) ] = YMap m' /\
    Py.dict_get m' "repos" = Some repos /\
    Py.iter repos = Ok hooks /\ scan_hooks hooks = Ok true.
Proof.
  apply (merge_result_has_entry (cz_hook_config "3.0.0")
           (Some (YMap foreign_document)) _ false); reflexivity.
Defined.

Lemma merge_objects_changes_one_object_witness :
  merge_objects (PRef 2) aliased_heap (Some (PRef 0))
  = Ok ([ PDict [ (SStr "base", PRef 1); (SStr "repos", PRef 1) ];
          PList [ PRef 2 ];
          PDict [ (SStr "repo",
                   PScalar (SStr "https://github.com/commitizen-tools/commitizen")) ];
          PDict [] ],
        PRef 0, false)
  /\ forall a o,
       nth_error aliased_heap a = Some o -> a <> 1 ->
       nth_error [ PDict [ (SStr "base", PRef 1); (SStr "repos", PRef 1) ];
                   PList [ PRef 2 ];
                   PDict [ (SStr "repo",
                            PScalar (SStr "https://github.com/commitizen-tools/commitizen")) ];
                   PDict [] ] a
       = Some o.
Proof.
  split; [reflexivity|].
  destruct (merge_objects_changes_one_object (PRef 2) aliased_heap (Some (PRef 0))
              _ (PRef 0) false eq_refl) as [_ H].
  destruct (H eq_refl)
    as [(Hroot & _)
       | [(r & m & Hex & _ & Hr & Hget & _)
         | (r & m & la & l & Hex & _ & Hr & Hget & _ & _ & Hrest)]].
  - discriminate Hroot.
  - injection Hex as <-. injection Hr as <-. discriminate Hget.
  - injection Hex as <-. injection Hr as <-. injection Hget as <-. exact Hrest.
Defined.

Lemma merge_falsy_document_witness :
  Py.truthy (YScalar (SInt 0)) = false
  /\ merge_config_data (cz_hook_config "3.0.0") (Some (YScalar (SInt 0)))
     = Ok (YMap [(SStr "repos", YSeq [cz_hook_config "3.0.0"])], false).
Proof.
  split; [reflexivity|].
  apply (merge_falsy_document (cz_hook_config "3.0.0") (YScalar (SInt 0))).
  reflexivity.
Defined.

Lemma merge_repos_not_sequence_raises_witness :
  merge_config_data (cz_hook_config "3.0.0")
    (Some (YMap [ (SStr "repos", YMap [ (SStr "local", YSeq []) ]) ]))
  = Err TypeError
  \/ merge_config_data (cz_hook_config "3.0.0")
       (Some (YMap [ (SStr "repos", YMap [ (SStr "local", YSeq []) ]) ]))
     = Err AttributeError.
Proof.
  apply (merge_repos_not_sequence_raises (cz_hook_config "3.0.0")
           [ (SStr "repos", YMap [ (SStr "local", YSeq []) ]) ]
           (YMap [ (SStr "local", YSeq []) ])).
  - reflexivity.
  - discriminate.
Defined.

Lemma hook_matches_substring_witness :
  hook_matches
    (YMap [ (SStr "repo", YStr "https://example.org/mirror/not-commitizen-at-all");
            (SStr "rev", YStr "0.1") ])
  = Ok true.
Proof.
  apply (proj1 (hook_matches_substring
                  [ (SStr "repo", YStr "https://example.org/mirror/not-commitizen-at-all");
                    (SStr "rev", YStr "0.1") ]
                  "https://example.org/mirror/not-commitizen-at-all" eq_refl)).
  now exists "https://example.org/mirror/not-", "-at-all".
Defined.

Lemma merge_first_match_wins_witness :
  merge_config_data (cz_hook_config "3.0.0")
    (Some (YMap [ (SStr "repos",
                   YSeq [ foreign_hook; cz_hook_config "2.0.0"; YStr "junk";
                          cz_hook_config "1.0.0" ]) ]))
  = Ok (YMap [ (SStr "repos",
                YSeq [ foreign_hook; cz_hook_config "2.0.0"; YStr "junk";
                       cz_hook_config "1.0.0" ]) ], true).
Proof.
  apply (merge_first_match_wins (cz_hook_config "3.0.0")
           [ (SStr "repos",
              YSeq [ foreign_hook; cz_hook_config "2.0.0"; YStr "junk";
                     cz_hook_config "1.0.0" ]) ]
           [foreign_hook] (cz_hook_config "2.0.0")
           [YStr "junk"; cz_hook_config "1.0.0"]).
  - reflexivity.
  - repeat constructor.
  - reflexivity.
Defined.

Lemma merge_non_mapping_raises_witness :
  merge_config_data (cz_hook_config "3.0.0") (Some (YSeq [ foreign_hook ]))
  = Err TypeError.
Proof.
  apply (merge_non_mapping_raises (cz_hook_config "3.0.0") (YSeq [ foreign_hook ])).
  - reflexivity.
  - discriminate.
Defined.

Lemma exec_install_status_witness :
  run world_handler (_exec_install_pre_commit_hook ["commit-msg"]) fresh_world
  = (Ok true, fresh_world,
     [Entry (CmdRun (install_cmd_str ["commit-msg"])) (cmd_result fresh_world)])
  /\
  result_of (run world_handler (_exec_install_pre_commit_hook ["commit-msg"])
               (with_hook_manager None (Some "/usr/bin/pre-commit") failed_command
                  fresh_world))
  = Ok false.
Proof.
  split.
  - apply (proj1 (exec_install_status world_handler fresh_world fresh_world
                    ["commit-msg"] (cmd_result fresh_world) ltac:(discriminate))).
    + reflexivity.
    + replies_by_run.
  - rewrite (proj2 (exec_install_status world_handler
                      (with_hook_manager None (Some "/usr/bin/pre-commit")
                         failed_command fresh_world)
                      (with_hook_manager None (Some "/usr/bin/pre-commit")
                         failed_command fresh_world)
                      ["commit-msg"] failed_command ltac:(discriminate))).
    + reflexivity.
    + discriminate.
    + replies_by_run.
Defined.

Lemma ask_tag_format_outcomes_witness :
  exists a,
    trace_of (run world_handler (_ask_tag_format "1.2.0")
                (with_answers [] [] [Some "$version"] [] fresh_world))
    = [Entry (Text tag_format_prompt) a].
Proof.
  apply (proj2 (ask_tag_format_outcomes world_handler
                  (with_answers [] [] [Some "$version"] [] fresh_world) "1.2.0")).
  reflexivity.
Defined.

Lemma ask_tag_confirmed_witness :
  run world_handler _ask_tag
    (with_answers [Some true] [] [] [] (with_tags (Some "v2.3.0") ["v2.3.0"] fresh_world))
  = (Ok "v2.3.0", with_tags (Some "v2.3.0") ["v2.3.0"] fresh_world,
     [Entry GetLatestTagName (Some "v2.3.0");
      Entry (Confirm (latest_tag_question "v2.3.0") (Some false)) (Some true)]).
Proof.
  refine (proj1 (ask_tag_confirmed world_handler
                   (with_answers [Some true] [] [] []
                      (with_tags (Some "v2.3.0") ["v2.3.0"] fresh_world))
                   (with_tags (Some "v2.3.0") ["v2.3.0"] fresh_world)
                   (Some "v2.3.0") "v2.3.0" _ _)).
  - reflexivity.
  - replies_by_run.
Defined.

Lemma ask_tag_selected_witness :
  result_of (run world_handler _ask_tag
               (with_answers [Some false] [Some "v0.9.0"] [] []
                  (with_tags (Some "v1.0.0") ["v0.9.0"; "v1.0.0"] fresh_world)))
  = Ok "v0.9.0".
Proof.
  rewrite (ask_tag_selected world_handler
             (with_answers [Some false] [Some "v0.9.0"] [] []
                (with_tags (Some "v1.0.0") ["v0.9.0"; "v1.0.0"] fresh_world))
             (with_tags (Some "v1.0.0") ["v0.9.0"; "v1.0.0"] fresh_world)
             (Some "v1.0.0") "v1.0.0" (Some false)
             ["v0.9.0"; "v1.0.0"] ["v0.9.0"; "v1.0.0"] (Some "v0.9.0") "v0.9.0").
  - reflexivity.
  - reflexivity.
  - reflexivity.
  - discriminate.
  - reflexivity.
  - replies_by_run.
Defined.

Lemma install_merge_error_writes_nothing_witness :
  let broken := YMap [ (SStr "repos", YSeq [ YMap [ (SStr "rev", YStr "1.0") ] ]) ] in
  let w := with_hook_manager (Some broken) (Some "/usr/bin/pre-commit")
             (cmd_result fresh_world) fresh_world in
  run world_handler (_install_pre_commit_hook "3.0.0" None) w
  = (Err (KeyError "repo"), w, read_entries (Some broken)).
Proof.
  intros broken w.
  apply (install_merge_error_writes_nothing world_handler w w "3.0.0" None
           (Some broken) (KeyError "repo")).
  - reflexivity.
  - replies_by_run.
Defined.

Lemma install_succeeds_witness :
  let doc := YMap [ (SStr "repos", YSeq [ foreign_hook; cz_hook_config "2.0.0" ]) ] in
  let w := with_hook_manager (Some doc) (Some "/usr/bin/pre-commit")
             (cmd_result fresh_world) fresh_world in
  result_of (run world_handler (_install_pre_commit_hook "3.0.0" (Some ["pre-push"])) w)
  = Ok true.
Proof.
  intros doc w.
  rewrite (install_succeeds world_handler w w "3.0.0" (Some ["pre-push"])
             (Some doc) doc true "/usr/bin/pre-commit" (cmd_result fresh_world)).
  - reflexivity.
  - reflexivity.
  - discriminate.
  - reflexivity.
  - replies_by_run.
Defined.

Lemma install_empty_hook_types_raises_witness :
  let r := run world_handler (_install_pre_commit_hook "3.0.0" (Some [])) fresh_world in
  result_of r = Err (ValueError "At least 1 hook type should be provided.")
  /\ hook_file (state_of r)
     = Some (YMap [ (SStr "repos", YSeq [ cz_hook_config "3.0.0" ]) ]).
Proof.
  intros r. unfold r.
  rewrite (install_empty_hook_types_raises world_handler fresh_world
             (with_hook_manager
                (Some (YMap [ (SStr "repos", YSeq [ cz_hook_config "3.0.0" ]) ]))
                (Some "/usr/bin/pre-commit") (cmd_result fresh_world) fresh_world)
             "3.0.0" None
             (YMap [ (SStr "repos", YSeq [ cz_hook_config "3.0.0" ]) ]) false
             "/usr/bin/pre-commit").
  - split; reflexivity.
  - reflexivity.
  - replies_by_run.
Defined.

Lemma install_twice_same_file_witness :
  let merged :=
    YMap [ (SStr "default_stages", YSeq [ YStr "commit" ]);
           (SStr "repos", YSeq [ foreign_hook; cz_hook_config "3.0.0" ]);
           (SStr "fail_fast", YScalar (SBool true)) ] in
  let w := with_hook_manager (Some (YMap foreign_document)) (Some "/usr/bin/pre-commit")
             (cmd_result fresh_world) fresh_world in
  let w1 := state_of (run world_handler (_install_pre_commit_hook "3.0.0" None) w) in
  let w2 := state_of (run world_handler
                        (_install_pre_commit_hook "3.1.0" (Some ["pre-push"])) w1) in
  hook_file w1 = Some merged /\ hook_file w2 = Some merged.
Proof.
  intros merged w.
  apply (install_twice_same_file w "3.0.0" "3.1.0" None (Some ["pre-push"]) merged false).
  reflexivity.
Defined.

Ltac answered_by_run :=
  split; [reflexivity | do 5 eexists; repeat split; first [replies_by_run | reflexivity]].

Lemma call_existing_config_witness :
  run world_handler
    (__call__ offered_config_files offered_rules "3.0.0" release_public
       (TomlConfig "" "pyproject.toml")) fresh_world
  = (Ok tt, fresh_world,
     [Entry (Out OutLine ("Config file " ++ "pyproject.toml" ++ " already exists")) tt]).
Proof.
  refine (proj1 (call_existing_config offered_config_files offered_rules "3.0.0"
                   release_public world_handler fresh_world fresh_world
                   (TomlConfig "" "pyproject.toml") "pyproject.toml" _ _)).
  - reflexivity.
  - replies_by_run.
Defined.

Lemma call_cancelled_path_raises_witness :
  run world_handler
    (__call__ offered_config_files offered_rules "3.0.0" release_public
       (BaseConfig None)) fresh_world
  = (Err TypeError, fresh_world,
     [Entry (Select config_path_question offered_config_files (Some "pyproject.toml"))
        None]).
Proof.
  apply (call_cancelled_path_raises offered_config_files offered_rules "3.0.0"
           release_public world_handler fresh_world fresh_world (BaseConfig None)).
  - reflexivity.
  - replies_by_run.
Defined.

Lemma call_abort_leaves_empty_document_witness :
  let w := with_answers [Some true]
             [Some "cz.json"; Some "cz_conventional_commits"] [] []
             (with_tags (Some "release-candidate") ["release-candidate"] fresh_world) in
  let reject := fun tag : string => @Err string (InvalidVersion tag) in
  let r := run world_handler
             (__call__ offered_config_files offered_rules "3.0.0" reject
                (BaseConfig None)) w in
  result_of r = Err (InvalidVersion "release-candidate")
  /\ inits (trace_of r) = [JsonConfig "{}" "cz.json"]
  /\ set_keys (trace_of r) = [].
Proof.
  intros w reject r. unfold r.
  edestruct (call_abort_leaves_empty_document offered_config_files offered_rules
               "3.0.0" reject world_handler w) with
    (self_config := BaseConfig None) (p := "cz.json")
    (n := Some "cz_conventional_commits")
    (e := InvalidVersion "release-candidate")
    as (Hrun & Hinits & Hkeys).
  - reflexivity.
  - replies_by_run.
  - right. exists "release-candidate". split; reflexivity.
  - rewrite Hrun. split; [reflexivity|]. split; [exact Hinits | exact Hkeys].
Defined.

Lemma call_without_hooks_witness :
  let w := with_answers [Some true; Some true]
             [Some ".cz.yaml"; Some "cz_conventional_commits"] [] [Some []]
             (with_tags (Some "v2.3.0") ["v2.3.0"] fresh_world) in
  let r := run world_handler
             (__call__ offered_config_files offered_rules "3.0.0" release_public
                (BaseConfig None)) w in
  result_of r = Ok tt
  /\ occurs touches_hook_manager (trace_of r) = false
  /\ hook_file (state_of r) = None.
Proof.
  intros w r. unfold r.
  edestruct (call_without_hooks offered_config_files offered_rules "3.0.0"
               release_public world_handler w) with
    (self_config := BaseConfig None) (p := ".cz.yaml")
    (n := Some "cz_conventional_commits")
    (tag := "v2.3.0") (v := "2.3.0") (fmt := "v$version")
    (hook_types := Some (@nil string))
    as (Hrun & Hocc).
  - answered_by_run.
  - now right.
  - replies_by_run.
  - rewrite Hrun. split; [reflexivity|]. split; [exact Hocc | reflexivity].
Defined.

Lemma call_install_failure_witness :
  let w := with_answers [Some true; Some true]
             [Some ".cz.toml"; Some "cz_conventional_commits"] []
             [Some ["commit-msg"]]
             (with_tags (Some "v2.3.0") ["v2.3.0"]
                (with_hook_manager None None (cmd_result fresh_world) fresh_world)) in
  let r := run world_handler
             (__call__ offered_config_files offered_rules "3.0.0" release_public
                (BaseConfig None)) w in
  result_of r
  = Err (InitFailedError "Installation failed. See error outputs for more information.")
  /\ set_keys (trace_of r)
     = wizard_keys (TomlConfig "" ".cz.toml") (Some "cz_conventional_commits")
         "2.3.0" "v$version"
  /\ store (state_of r)
     = [ ("name", Some "cz_conventional_commits"); ("version", Some "2.3.0");
         ("tag_format", Some "v$version") ].
Proof.
  intros w r. unfold r.
  edestruct (call_install_failure offered_config_files offered_rules "3.0.0"
               release_public world_handler w) with
    (self_config := BaseConfig None) (p := ".cz.toml")
    (n := Some "cz_conventional_commits")
    (tag := "v2.3.0") (v := "2.3.0") (fmt := "v$version")
    (ty := "commit-msg") (tys := @nil string)
    as (Hrun & Hkeys).
  - answered_by_run.
  - replies_by_run.
  - reflexivity.
  - rewrite Hrun. split; [reflexivity|]. split; [exact Hkeys | reflexivity].
Defined.

Lemma call_with_hooks_succeeds_witness :
  let w := with_answers [Some true; Some true]
             [Some ".cz.toml"; Some "cz_conventional_commits"] []
             [Some ["commit-msg"]]
             (with_tags (Some "v2.3.0") ["v2.3.0"] fresh_world) in
  let r := run world_handler
             (__call__ offered_config_files offered_rules "3.0.0" release_public
                (BaseConfig None)) w in
  result_of r = Ok tt
  /\ hook_file (state_of r)
     = Some (YMap [ (SStr "repos", YSeq [ cz_hook_config "3.0.0" ]) ]).
Proof.
  intros w r. unfold r.
  erewrite (call_with_hooks_succeeds offered_config_files offered_rules "3.0.0"
              release_public world_handler w) with
    (self_config := BaseConfig None) (p := ".cz.toml")
    (n := Some "cz_conventional_commits")
    (tag := "v2.3.0") (v := "2.3.0") (fmt := "v$version")
    (ty := "commit-msg") (tys := @nil string); cycle 1.
  - answered_by_run.
  - replies_by_run.
  - reflexivity.
  - replies_by_run.
  - split; reflexivity.
Defined.
